(** * In-memory academic record store and its analytics (server/storage.ts)

    A shallow embedding of [MemStorage]: the two insertion-ordered
    [Map<string, _>] collections, the CRUD operations on them, and the two
    dashboard derivations.  JavaScript numbers that carry a CGPA are IEEE 754
    binary64 values, modelled by Rocq's primitive [float]. *)

From Stdlib Require Import List String Ascii Bool ZArith NArith Lia Floats Setoid.
From Stdlib Require Import Sorted Permutation.
From Stdlib Require Uint63.
Import ListNotations.

Set Implicit Arguments.
#[local] Set Warnings "-inexact-float".

Local Open Scope string_scope.
Local Open Scope list_scope.

(** ** JavaScript [Map] with string keys

    A [Map] iterates in insertion order, holds each key once, keeps the
    position of a key whose value is overwritten, and appends a new key at
    the end.  An association list whose keys are pairwise distinct ([wf])
    has exactly this behaviour. *)

Module JsMap.
Section WithValue.
Variable V : Type.

Definition t : Type := list (string * V).

Definition empty : t := [].

Definition keys (m : t) : list string := map fst m.

(** [Array.from(m.values())] *)
Definition values (m : t) : list V := map snd m.

(** The representation invariant of a [Map]: no key occurs twice. *)
Definition wf (m : t) : Prop := NoDup (keys m).

(** [m.get(k)]; [None] stands for [undefined]. *)
Fixpoint get (k : string) (m : t) : option V :=
  match m with
  | [] => None
  | (k', v) :: m' => if String.eqb k k' then Some v else get k m'
  end.

(** [m.has(k)] *)
Definition has (k : string) (m : t) : bool :=
  existsb (fun kv => String.eqb k (fst kv)) m.

(** [m.set(k, v)]: overwrite in place, or append. *)
Fixpoint set (k : string) (v : V) (m : t) : t :=
  match m with
  | [] => [(k, v)]
  | (k', v') :: m' =>
      if String.eqb k k' then (k, v) :: m' else (k', v') :: set k v m'
  end.

(** [m.delete(k)]: the map without key [k], and whether [k] was there. *)
Definition delete (k : string) (m : t) : t * bool :=
  (filter (fun kv => negb (String.eqb k (fst kv))) m, has k m).

(** Number of entries stored under [k]. *)
Definition count (k : string) (m : t) : nat :=
  List.length (filter (fun kv => String.eqb k (fst kv)) m).

End WithValue.
End JsMap.

Unset Implicit Arguments.

(** ** Entities

    Modelled from the spec: the record types of [@shared/schema] ([Student],
    [InsertStudent], [Subject], [InsertSubject]) are declared outside
    server/storage.ts.  Their fields are those the store reads and writes;
    [cgpa] is decimal text, [credits] a non-negative integer, an optional
    field is an [option]. *)

Module Subject.
(** Modelled from the spec: a stored subject, with its generated key [id]. *)
Record t : Type := mk {
  id : string;
  code : string;
  name : string;
  grade : option string;      (* [None] is [null] *)
  status : string;
  studentId : option string   (* [None] is [null] *)
}.
End Subject.

Module InsertSubject.
(** Modelled from the spec: the argument of [createSubject]. *)
Record t : Type := mk {
  code : string;
  name : string;
  grade : option string;      (* [None] is absent *)
  status : string;
  studentId : option string   (* [None] is absent *)
}.
End InsertSubject.

Module Student.
(** Modelled from the spec: a stored student; [subjects] is the field the
    store fills with [insertStudent.subjects || []] and a read overwrites
    with the joined subjects. *)
Record t : Type := mk {
  id : string;
  name : string;
  email : string;
  intake : string;
  programme : string;
  cgpa : string;
  credits : N;
  subjects : list Subject.t;
  createdAt : string
}.

(** [{ ...s, subjects }] *)
Definition withSubjects (s : t) (subs : list Subject.t) : t :=
  mk (id s) (name s) (email s) (intake s) (programme s) (cgpa s)
     (credits s) subs (createdAt s).
End Student.

(** A [StudentWithSubjects] has the shape of a [Student]; its [subjects]
    are the joined ones. *)
Definition StudentWithSubjects : Type := Student.t.

Module InsertStudent.
(** Modelled from the spec: the argument of [createStudent]; [credits] and
    [subjects] may be absent. *)
Record t : Type := mk {
  id : string;
  name : string;
  email : string;
  intake : string;
  programme : string;
  cgpa : string;
  credits : option N;
  subjects : option (list Subject.t)
}.
End InsertStudent.

Module PartialInsertStudent.
(** [Partial<InsertStudent>]: every field may be absent. *)
Record t : Type := mk {
  id : option string;
  name : option string;
  email : option string;
  intake : option string;
  programme : option string;
  cgpa : option string;
  credits : option N;
  subjects : option (list Subject.t)
}.

Definition none : t := mk None None None None None None None None.
End PartialInsertStudent.

(** ** JavaScript operators used by the store *)

(** [x || 0] on an optional number: [undefined] and [0] are falsy. *)
Definition or_zero (x : option N) : N :=
  match x with
  | Some n => if (n =? 0)%N then 0%N else n
  | None => 0%N
  end.

(** [x || []] on an optional array: every array is truthy. *)
Definition or_nil {A : Type} (x : option (list A)) : list A :=
  match x with
  | Some l => l
  | None => []
  end.

(** [x || null] on optional text: [undefined] and [''] are falsy. *)
Definition or_null (x : option string) : option string :=
  match x with
  | Some s => if String.eqb s "" then None else Some s
  | None => None
  end.

(** [x === s] where [x] is text or [null]. *)
Definition strict_eq (x : option string) (s : string) : bool :=
  match x with
  | Some y => String.eqb y s
  | None => false
  end.

(** A property of a spread source overrides the target's when present. *)
Definition spread {A : Type} (target : A) (source : option A) : A :=
  match source with
  | Some v => v
  | None => target
  end.

(** What a partial update does to one field: a given value replaces the
    old one, an absent one leaves it. *)
Definition FieldMerged {A : Type} (given : option A) (old new : A) : Prop :=
  (forall v, given = Some v -> new = v) /\ (given = None -> new = old).

(** ** The store *)

Record MemStorage : Type := mkStorage {
  students : JsMap.t Student.t;
  subjects : JsMap.t Subject.t
}.

(** The store right after [new Map()] twice, before seeding. *)
Definition emptyStorage : MemStorage := mkStorage (JsMap.empty _) (JsMap.empty _).

(** Both collections are genuine [Map]s. *)
Definition StoreInv (st : MemStorage) : Prop :=
  JsMap.wf (students st) /\ JsMap.wf (subjects st).

Definition getSubjectsByStudentId (studentId : string) (st : MemStorage)
  : list Subject.t :=
  filter (fun subject => strict_eq (Subject.studentId subject) studentId)
         (JsMap.values (subjects st)).

Definition getStudent (id : string) (st : MemStorage) : option StudentWithSubjects :=
  match JsMap.get id (students st) with
  | None => None
  | Some student =>
      let subjects := getSubjectsByStudentId id st in
      Some (Student.withSubjects student subjects)
  end.

Definition getStudentByEmail (email : string) (st : MemStorage)
  : option StudentWithSubjects :=
  match find (fun s => String.eqb (Student.email s) email)
             (JsMap.values (students st)) with
  | None => None
  | Some student =>
      let subjects := getSubjectsByStudentId (Student.id student) st in
      Some (Student.withSubjects student subjects)
  end.

(** The [Student] built by [createStudent]; [now] is
    [new Date().toISOString()] at the time of the call. *)
Definition newStudent (now : string) (insertStudent : InsertStudent.t) : Student.t :=
  Student.mk
    (InsertStudent.id insertStudent)
    (InsertStudent.name insertStudent)
    (InsertStudent.email insertStudent)
    (InsertStudent.intake insertStudent)
    (InsertStudent.programme insertStudent)
    (InsertStudent.cgpa insertStudent)
    (or_zero (InsertStudent.credits insertStudent))
    (or_nil (InsertStudent.subjects insertStudent))
    now.

Definition createStudent (now : string) (insertStudent : InsertStudent.t)
  (st : MemStorage) : MemStorage * StudentWithSubjects :=
  let student := newStudent now insertStudent in
  (mkStorage (JsMap.set (Student.id student) student (students st)) (subjects st),
   Student.withSubjects student []).

Definition getAllStudents (st : MemStorage) : list StudentWithSubjects :=
  map (fun student =>
         let subjects := getSubjectsByStudentId (Student.id student) st in
         Student.withSubjects student subjects)
      (JsMap.values (students st)).

Definition getStudentsBySemester (semester : string) (st : MemStorage)
  : list StudentWithSubjects :=
  let allStudents := getAllStudents st in
  filter (fun student => String.eqb (Student.intake student) semester) allStudents.

(** [{ ...existingStudent, ...updateData }] *)
Definition mergeStudent (existingStudent : Student.t)
  (updateData : PartialInsertStudent.t) : Student.t :=
  Student.mk
    (spread (Student.id existingStudent) (PartialInsertStudent.id updateData))
    (spread (Student.name existingStudent) (PartialInsertStudent.name updateData))
    (spread (Student.email existingStudent) (PartialInsertStudent.email updateData))
    (spread (Student.intake existingStudent) (PartialInsertStudent.intake updateData))
    (spread (Student.programme existingStudent) (PartialInsertStudent.programme updateData))
    (spread (Student.cgpa existingStudent) (PartialInsertStudent.cgpa updateData))
    (spread (Student.credits existingStudent) (PartialInsertStudent.credits updateData))
    (spread (Student.subjects existingStudent) (PartialInsertStudent.subjects updateData))
    (Student.createdAt existingStudent).

Definition updateStudent (id : string) (updateData : PartialInsertStudent.t)
  (st : MemStorage) : MemStorage * option StudentWithSubjects :=
  match JsMap.get id (students st) with
  | None => (st, None)
  | Some existingStudent =>
      let updatedStudent := mergeStudent existingStudent updateData in
      let st' := mkStorage (JsMap.set id updatedStudent (students st)) (subjects st) in
      let subjects := getSubjectsByStudentId id st' in
      (st', Some (Student.withSubjects updatedStudent subjects))
  end.

Definition deleteStudent (id : string) (st : MemStorage) : MemStorage * bool :=
  let (students', existed) := JsMap.delete id (students st) in
  (mkStorage students' (subjects st), existed).

(** [uuid] is the value [randomUUID()] returns in this call. *)
Definition createSubject (uuid : string) (subject : InsertSubject.t)
  (st : MemStorage) : MemStorage * Subject.t :=
  let id := uuid in
  let newSubject :=
    Subject.mk id
      (InsertSubject.code subject)
      (InsertSubject.name subject)
      (or_null (InsertSubject.grade subject))
      (InsertSubject.status subject)
      (or_null (InsertSubject.studentId subject)) in
  (mkStorage (students st) (JsMap.set id newSubject (subjects st)), newSubject).

(** ** JavaScript numbers

    A CGPA is a binary64 value; counts and credits are small non-negative
    integers and are kept as [nat] and [N]. *)

(** The number value of an array length. *)
Definition Number_of_nat (n : nat) : float :=
  of_uint63 (Uint63.of_Z (Z.of_nat n)).

(** [Math.round(x)]: the integer nearest to [x], ties towards +infinity,
    i.e. floor(x + 1/2) computed exactly; a result in [-0.5, 0) is [-0]. *)
Definition Math_round (x : float) : float :=
  match Prim2SF x with
  | S754_finite s m e =>
      if (0 <=? e)%Z then x
      else
        let d := (2 ^ (- e))%Z in
        let n := if s then Z.neg m else Z.pos m in
        let k := ((2 * n + d) / (2 * d))%Z in
        if (k =? 0)%Z then (if s then neg_zero else zero)
        else if (k <? 0)%Z then (- of_uint63 (Uint63.of_Z (- k)))%float
        else of_uint63 (Uint63.of_Z k)
  | _ => x
  end.

(** The decimal-literal core of [parseFloat]: an optional sign, digits and an
    optional fraction; what follows the literal is ignored, and text that
    starts with no digit gives [NaN].  The quotient of the digit string by
    its power of ten is one correctly rounded division, which is the nearest
    binary64 value for up to 15 significant digits.  Exponents, leading
    white space and [Infinity] are not read.  The analytics below are
    stated for an arbitrary [parseFloat]; this one evaluates the scenarios. *)
Definition digitValue (c : ascii) : option Z :=
  let n := Z.of_nat (nat_of_ascii c) in
  if ((48 <=? n) && (n <=? 57))%Z then Some (n - 48)%Z else None.

Fixpoint readDigits (s : string) (acc : Z) (cnt : nat) : Z * nat * string :=
  match s with
  | String c s' =>
      match digitValue c with
      | Some d => readDigits s' (acc * 10 + d)%Z (S cnt)
      | None => (acc, cnt, s)
      end
  | EmptyString => (acc, cnt, s)
  end.

Definition parseDecimal (s : string) : float :=
  let '(negative, s1) :=
    match s with
    | String "-"%char r => (true, r)
    | String "+"%char r => (false, r)
    | _ => (false, s)
    end in
  let '(ip, ni, s2) := readDigits s1 0%Z 0%nat in
  let '(m, nf) :=
    match s2 with
    | String "."%char r => let '(m, nf, _) := readDigits r ip 0%nat in (m, nf)
    | _ => (ip, 0%nat)
    end in
  if Nat.eqb (ni + nf) 0 then nan
  else
    let v := (of_uint63 (Uint63.of_Z m) / of_uint63 (Uint63.of_Z (10 ^ Z.of_nat nf)))%float in
    if negative then (- v)%float else v.

(** ** Analytics *)

Record DashboardMetrics : Type := mkMetrics {
  totalStudents : nat;
  deansListCount : nat;
  probationCount : nat;
  averageCGPA : float
}.

Record PerformanceData : Type := mkPerformance {
  deansListStudents : list StudentWithSubjects;
  probationStudents : list StudentWithSubjects;
  goodStandingStudents : list StudentWithSubjects
}.

(** The resolved candidate set: the branch both dashboard operations start
    with.  An absent key, the empty text and ['all'] select every student. *)
Definition candidateSet (semester : option string) (st : MemStorage)
  : list StudentWithSubjects :=
  match semester with
  | Some k =>
      if negb (String.eqb k "") && negb (String.eqb k "all")
      then getStudentsBySemester k st
      else getAllStudents st
  | None => getAllStudents st
  end.

(** The standing rules in the spec's words, on a parsed CGPA and a credit
    count. *)
Definition deansListRule (cgpa : float) (credits : N) : bool :=
  (3.75 <=? cgpa)%float && (12 <=? credits)%N.

Definition probationMetricRule (cgpa : float) : bool :=
  (cgpa <? 2.00)%float.

Definition probationSegmentRule (cgpa : float) (credits : N) : bool :=
  (cgpa <? 2.00)%float && (0 <? credits)%N.

Definition goodStandingRule (cgpa : float) (credits : N) : bool :=
  (2.00 <=? cgpa)%float && ((cgpa <? 3.75)%float || (credits <? 12)%N).

(** The spec's [averageCGPA]: the mean of a list of numbers, and the display
    rounding to two decimals, both in binary64 arithmetic. *)
Definition sumOf (xs : list float) : float :=
  fold_left (fun acc x => (acc + x)%float) xs 0%float.

Definition arithmeticMean (xs : list float) : float :=
  (sumOf xs / Number_of_nat (List.length xs))%float.

Definition roundTo2dp (x : float) : float :=
  (Math_round (x * 100) / 100)%float.

Section Analytics.
(** The built-in [parseFloat]. *)
Variable parseFloat : string -> float.

Definition getDashboardMetrics (semester : option string) (st : MemStorage)
  : DashboardMetrics :=
  let students :=
    match semester with
    | Some k =>
        if negb (String.eqb k "") && negb (String.eqb k "all")
        then getStudentsBySemester k st
        else getAllStudents st
    | None => getAllStudents st
    end in
  let totalStudents := List.length students in
  let deansListCount :=
    List.length
      (filter (fun s => (3.75 <=? parseFloat (Student.cgpa s))%float
                        && (12 <=? Student.credits s)%N) students) in
  let probationCount :=
    List.length
      (filter (fun s => (parseFloat (Student.cgpa s) <? 2.00)%float) students) in
  let averageCGPA :=
    if (0 <? totalStudents)%nat
    then (fold_left (fun sum s => (sum + parseFloat (Student.cgpa s))%float)
                    students 0%float
          / Number_of_nat totalStudents)%float
    else 0%float in
  mkMetrics totalStudents deansListCount probationCount
            (Math_round (averageCGPA * 100) / 100)%float.

Definition getDashboardPerformance (semester : option string) (st : MemStorage)
  : PerformanceData :=
  let students :=
    match semester with
    | Some k =>
        if negb (String.eqb k "") && negb (String.eqb k "all")
        then getStudentsBySemester k st
        else getAllStudents st
    | None => getAllStudents st
    end in
  let deansListStudents :=
    filter (fun s => (3.75 <=? parseFloat (Student.cgpa s))%float
                     && (12 <=? Student.credits s)%N) students in
  let probationStudents :=
    filter (fun s => (parseFloat (Student.cgpa s) <? 2.00)%float
                     && (0 <? Student.credits s)%N) students in
  let goodStandingStudents :=
    filter (fun s =>
              let cgpa := parseFloat (Student.cgpa s) in
              (2.00 <=? cgpa)%float
              && ((cgpa <? 3.75)%float || (Student.credits s <? 12)%N)) students in
  mkPerformance deansListStudents probationStudents goodStandingStudents.

End Analytics.

(** ** Scenario data *)

Definition scenarioStudent (id cgpa : string) (credits : N) : InsertStudent.t :=
  InsertStudent.mk id "" (id ++ "@uow.edu.my") "Jun-25"
    "Bachelor of Information Systems (Hons)" cgpa (Some credits) None.

Definition S1 := scenarioStudent "S1" "3.80" 15.
Definition S2 := scenarioStudent "S2" "2.80" 15.
Definition S3 := scenarioStudent "S3" "1.50" 0.

Definition scenarioA : MemStorage :=
  fst (createStudent "t2" S2 (fst (createStudent "t1" S1 emptyStorage))).

Definition scenarioB : MemStorage :=
  fst (createStudent "t3" S3 scenarioA).

(** ** Order-preserving sublists *)

Inductive Subsequence {A : Type} : list A -> list A -> Prop :=
| Subsequence_nil : Subsequence [] []
| Subsequence_keep x l l' : Subsequence l l' -> Subsequence (x :: l) (x :: l')
| Subsequence_drop x l l' : Subsequence l l' -> Subsequence l (x :: l').

(** The stores a [MemStorage] can be in: the constructor's two empty maps,
    then any sequence of [set]s on the subjects (the seeding) and of the
    public mutations.  Seeding a student stores the same record as
    [createStudent]. *)
Inductive Reachable : MemStorage -> Prop :=
| Reachable_new : Reachable emptyStorage
| Reachable_seedSubject st id subject :
    Reachable st ->
    Reachable (mkStorage (students st) (JsMap.set id subject (subjects st)))
| Reachable_createStudent st now input :
    Reachable st -> Reachable (fst (createStudent now input st))
| Reachable_updateStudent st id updateData :
    Reachable st -> Reachable (fst (updateStudent id updateData st))
| Reachable_deleteStudent st id :
    Reachable st -> Reachable (fst (deleteStudent id st))
| Reachable_createSubject st uuid subject :
    Reachable st -> Reachable (fst (createSubject uuid subject st)).

(** [KeepOnly P l r]: [r] is [l] with exactly the elements satisfying [P]
    kept, each as often as it occurs and in the order of [l]. *)
Inductive KeepOnly {A : Type} (P : A -> Prop) : list A -> list A -> Prop :=
| KeepOnly_nil : KeepOnly P [] []
| KeepOnly_keep x l r : P x -> KeepOnly P l r -> KeepOnly P (x :: l) (x :: r)
| KeepOnly_drop x l r : ~ P x -> KeepOnly P l r -> KeepOnly P (x :: l) r.

(** Every student is stored under its own [id], as [createStudent] and the
    seeding leave it. *)
Definition KeyedById (st : MemStorage) : Prop :=
  Forall (fun kv => Student.id (snd kv) = fst kv) (students st).

(** ** What rounding to the nearest integer means

    A finite non-zero binary64 value is [n * 2 ^ e] for the signed mantissa
    [n] and exponent [e] that [Prim2SF] gives. *)

(** The binary64 value of the integer [k], for [|k| <= 2 ^ 53] where the
    conversion is exact; a zero takes the sign asked for. *)
Definition floatOfInteger (negativeZero : bool) (k : Z) : float :=
  if (k =? 0)%Z then (if negativeZero then neg_zero else zero)
  else if (k <? 0)%Z then (- of_uint63 (Uint63.of_Z (- k)))%float
  else of_uint63 (Uint63.of_Z k).



(** ** Seeding ([seedData] and the constructor)

    [parseStudentCSV] lives in ./csv-parser; its outcome is an argument:
    [None] when it throws, otherwise the parsed students and subjects.  Each
    parsed student comes with the [new Date().toISOString()] of its
    iteration and each parsed subject with the [randomUUID()] of its own.
    A parsed student is read as an [InsertStudent] and a parsed subject as an
    [InsertSubject] (their [grade] and [studentId] are copied as they are). *)

Definition seedStudent (st : MemStorage) (row : string * InsertStudent.t)
  : MemStorage :=
  let (now, student) := row in
  mkStorage (JsMap.set (InsertStudent.id student) (newStudent now student) (students st))
            (subjects st).

Definition seedSubject (st : MemStorage) (row : string * InsertSubject.t)
  : MemStorage :=
  let (id, subject) := row in
  mkStorage (students st)
            (JsMap.set id
               (Subject.mk id
                  (InsertSubject.code subject)
                  (InsertSubject.name subject)
                  (InsertSubject.grade subject)
                  (InsertSubject.status subject)
                  (InsertSubject.studentId subject))
               (subjects st)).

(** The fallback data of the [catch] branch. *)
Definition sampleA0001 : InsertStudent.t :=
  InsertStudent.mk "A0001" "Anya Taylor-Joy" "A0001@uow.edu.my" "Jun-25"
    "Bachelor of Information Systems (Hons)" "3.50" (Some 18%N) None.

Definition sampleA0002 : InsertStudent.t :=
  InsertStudent.mk "A0002" "Austin Butler" "A0002@uow.edu.my" "Jun-25"
    "Bachelor of Information Systems (Hons)" "2.80" (Some 15%N) None.

Definition sampleStudents : list InsertStudent.t := [sampleA0001; sampleA0002].

Definition CsvData : Type :=
  (list (string * InsertStudent.t) * list (string * InsertSubject.t))%type.

(** [fallbackTimes] are the creation times of the two sample students. *)
Definition seedData (parsed : option CsvData) (fallbackTimes : string * string)
  (st : MemStorage) : MemStorage :=
  match parsed with
  | Some (students, subjects) =>
      fold_left seedSubject subjects (fold_left seedStudent students st)
  | None =>
      fold_left seedStudent
        [(fst fallbackTimes, sampleA0001); (snd fallbackTimes, sampleA0002)] st
  end.

(** [new MemStorage()] *)
Definition newMemStorage (parsed : option CsvData) (fallbackTimes : string * string)
  : MemStorage :=
  seedData parsed fallbackTimes emptyStorage.

(** The student built from the last parsed row that carries [id]. *)
Definition lastRowFor (id : string) (rows : list (string * InsertStudent.t))
  : option Student.t :=
  match find (fun row => String.eqb (InsertStudent.id (snd row)) id) (rev rows) with
  | Some row => Some (newStudent (fst row) (snd row))
  | None => None
  end.

(** ** Composition of partial updates *)

(** [{ ...u1, ...u2 }] on two partial inputs: a field of the later input
    wins. *)
Definition laterOr {A : Type} (later earlier : option A) : option A :=
  match later with
  | Some v => Some v
  | None => earlier
  end.

Definition overlayPartial (u1 u2 : PartialInsertStudent.t) : PartialInsertStudent.t :=
  PartialInsertStudent.mk
    (laterOr (PartialInsertStudent.id u2) (PartialInsertStudent.id u1))
    (laterOr (PartialInsertStudent.name u2) (PartialInsertStudent.name u1))
    (laterOr (PartialInsertStudent.email u2) (PartialInsertStudent.email u1))
    (laterOr (PartialInsertStudent.intake u2) (PartialInsertStudent.intake u1))
    (laterOr (PartialInsertStudent.programme u2) (PartialInsertStudent.programme u1))
    (laterOr (PartialInsertStudent.cgpa u2) (PartialInsertStudent.cgpa u1))
    (laterOr (PartialInsertStudent.credits u2) (PartialInsertStudent.credits u1))
    (laterOr (PartialInsertStudent.subjects u2) (PartialInsertStudent.subjects u1)).

(** ** The semester list (GET /api/semesters in server/routes.ts) *)

(** [Array.from(new Set(l))]: the distinct values, each at its first
    occurrence. *)
Definition setOfStrings (l : list string) : list string :=
  fold_left (fun acc x => if existsb (String.eqb x) acc then acc else acc ++ [x]) l [].

Section SemesterList.
(** The order [Array.prototype.sort()] uses when it is given no comparison
    function: [codeUnitLeb a b] holds when text [a] does not come after text
    [b] in the lexicographic order of their UTF-16 code units.  It is an
    argument, as the built-in it is; what is assumed of it is stated where
    it is used. *)
Variable codeUnitLeb : string -> string -> bool.

Fixpoint insertSorted (x : string) (l : list string) : list string :=
  match l with
  | [] => [x]
  | y :: l' => if codeUnitLeb x y then x :: l else y :: insertSorted x l'
  end.

(** [l.sort()] *)
Definition sortStrings (l : list string) : list string :=
  fold_right insertSorted [] l.

(** The body of the 200 response. *)
Definition semestersRoute (st : MemStorage) : list string :=
  let students := getAllStudents st in
  let semesterSet := setOfStrings (map Student.intake students) in
  sortStrings semesterSet.

End SemesterList.

(** Three stored intakes, two of them equal, out of order. *)
Definition scenarioIntakes : MemStorage :=
  fst (createStudent "t3"
         (InsertStudent.mk "S3" "" "s3@uow.edu.my" "Jun-25" "BIS" "2.00" None None)
         (fst (createStudent "t2"
                 (InsertStudent.mk "S2" "" "s2@uow.edu.my" "Jan-25" "BIS" "3.00" None None)
                 (fst (createStudent "t1"
                         (InsertStudent.mk "S1" "" "s1@uow.edu.my" "Jun-25" "BIS" "3.50"
                            None None)
                         emptyStorage))))).

(** ** Facts about the [Map] model *)

Set Implicit Arguments.

Module JsMapFacts.
Import JsMap.
Section WithValue.
Variable V : Type.
Implicit Types (m : t V) (k : string) (v : V).

Lemma wf_empty : wf (empty V).
Proof. constructor. Qed.

Lemma get_In_keys k m : get k m <> None <-> In k (keys m).
Proof.
  induction m as [|[k' v'] m IH]; simpl.
  - split; [congruence | tauto].
  - destruct (String.eqb_spec k k') as [->|Hne].
    + split; [auto | discriminate].
    + rewrite IH. split; [auto | intros [Heq|Hin]; [congruence | exact Hin]].
Qed.

Lemma get_None_keys k m : get k m = None <-> ~ In k (keys m).
Proof.
  rewrite <- get_In_keys. destruct (get k m); split; try congruence.
  intros H. exfalso. apply H. discriminate.
Qed.

Lemma has_get k m : has k m = match get k m with Some _ => true | None => false end.
Proof.
  unfold has. induction m as [|[k' v'] m IH]; simpl; [reflexivity|].
  destruct (String.eqb k k'); simpl; [reflexivity | exact IH].
Qed.

Lemma get_set_same k v m : get k (set k v m) = Some v.
Proof.
  induction m as [|[k' v'] m IH]; simpl.
  - now rewrite String.eqb_refl.
  - destruct (String.eqb k k') eqn:E; simpl.
    + now rewrite String.eqb_refl.
    + now rewrite E.
Qed.

Lemma get_set_other k k' v m : k' <> k -> get k' (set k v m) = get k' m.
Proof.
  intros Hne. induction m as [|[k0 v0] m IH]; simpl.
  - destruct (String.eqb_spec k' k); [contradiction | reflexivity].
  - destruct (String.eqb_spec k k0) as [->|Hk]; simpl.
    + destruct (String.eqb_spec k' k0); [contradiction | reflexivity].
    + now rewrite IH.
Qed.

(** Overwriting keeps the key sequence; a new key goes to the end. *)
Lemma keys_set k v m :
  keys (set k v m) = if has k m then keys m else keys m ++ [k].
Proof.
  unfold has. induction m as [|[k0 v0] m IH]; simpl; [reflexivity|].
  destruct (String.eqb_spec k k0) as [->|Hk]; simpl; [reflexivity|].
  rewrite IH. now destruct (existsb _ m).
Qed.

Lemma has_true_In k m : has k m = true <-> In k (keys m).
Proof.
  rewrite has_get, <- get_In_keys. destruct (get k m); split; congruence.
Qed.

Lemma wf_set k v m : wf m -> wf (set k v m).
Proof.
  unfold wf. intros Hwf. rewrite keys_set.
  destruct (has k m) eqn:E; [exact Hwf|].
  assert (Hnin : ~ In k (keys m)).
  { rewrite <- has_true_In. congruence. }
  clear E. induction (keys m) as [|a l IH]; simpl.
  - constructor; [tauto | constructor].
  - inversion Hwf as [|? ? Ha Hl]; subst. constructor.
    + rewrite in_app_iff. simpl. intros [H|[H|[]]]; [tauto|].
      apply Hnin. left. symmetry. exact H.
    + apply IH; [exact Hl|]. intros H. apply Hnin. now right.
Qed.

Lemma keys_delete k m :
  keys (fst (delete k m)) = filter (fun k' => negb (String.eqb k k')) (keys m).
Proof.
  unfold delete, keys. simpl. induction m as [|[k0 v0] m IH]; simpl; [reflexivity|].
  destruct (String.eqb k k0); simpl; now rewrite IH.
Qed.

Lemma wf_delete k m : wf m -> wf (fst (delete k m)).
Proof.
  unfold wf. rewrite keys_delete. apply NoDup_filter.
Qed.

Lemma get_delete_same k m : get k (fst (delete k m)) = None.
Proof.
  apply get_None_keys. rewrite keys_delete, filter_In.
  intros [_ H]. now rewrite String.eqb_refl in H.
Qed.

Lemma get_delete_other k k' m : k' <> k -> get k' (fst (delete k m)) = get k' m.
Proof.
  intros Hne. unfold delete. simpl.
  induction m as [|[k0 v0] m IH]; simpl; [reflexivity|].
  destruct (String.eqb_spec k k0) as [->|Hk]; simpl.
  - destruct (String.eqb_spec k' k0); [contradiction | exact IH].
  - now rewrite IH.
Qed.

Lemma delete_absent k m : has k m = false -> fst (delete k m) = m.
Proof.
  unfold delete, has. cbn [fst].
  induction m as [|[k0 v0] m IH]; simpl; [reflexivity|].
  intros H. apply orb_false_iff in H. destruct H as [Hk Hm].
  rewrite Hk. simpl. f_equal. now apply IH.
Qed.

Lemma count_wf_le k m : wf m -> (count k m <= 1)%nat.
Proof.
  unfold wf, count. induction m as [|[k0 v0] m IH]; simpl; intros Hwf; [lia|].
  inversion Hwf as [|? ? Hk0 Hm]; subst.
  destruct (String.eqb_spec k k0) as [->|Hk]; simpl; [|auto].
  assert (E : filter (fun kv : string * V => String.eqb k0 (fst kv)) m = []).
  { clear IH Hwf Hm. induction m as [|[k1 v1] m IHm]; simpl; [reflexivity|].
    destruct (String.eqb_spec k0 k1) as [->|Hk1].
    - exfalso. apply Hk0. now left.
    - apply IHm. intros H. apply Hk0. now right. }
  rewrite E. simpl. lia.
Qed.

Lemma count_pos_get k m : get k m <> None -> (1 <= count k m)%nat.
Proof.
  unfold count. induction m as [|[k0 v0] m IH]; simpl; [congruence|].
  destruct (String.eqb k k0); simpl; [lia | exact IH].
Qed.

(** After [set], a well-formed map holds exactly one entry for the key. *)
Lemma count_set k v m : wf m -> count k (set k v m) = 1%nat.
Proof.
  intros Hwf.
  pose proof (count_wf_le k (wf_set k v Hwf)) as Hle.
  assert (Hge : (1 <= count k (set k v m))%nat).
  { apply count_pos_get. rewrite get_set_same. discriminate. }
  lia.
Qed.

End WithValue.
End JsMapFacts.

Unset Implicit Arguments.

(** ** Scenario checks *)

Example scenarioA_metrics :
  getDashboardMetrics parseDecimal None scenarioA = mkMetrics 2 1 0 3.3%float.
Proof. vm_compute. reflexivity. Qed.

Example parseDecimal_samples :
  parseDecimal "3.80" = 3.8%float /\ parseDecimal "1.50" = 1.5%float /\
  parseDecimal "2" = 2%float /\ parseDecimal "-0.25x" = (-0.25)%float /\
  is_nan (parseDecimal "abc") = true.
Proof. repeat split; vm_compute; reflexivity. Qed.

Example Math_round_samples :
  Math_round 2.5 = 3%float /\ Math_round (-2.5) = (-2)%float /\
  Math_round 330.00000000000006 = 330%float /\ Math_round 0.49 = 0%float /\
  Math_round (-0.3) = neg_zero /\ Math_round 1e300 = 1e300%float /\
  Math_round (-3.6) = (-4)%float.
Proof. repeat split; vm_compute; reflexivity. Qed.

(** The display rounding works on the binary64 product: 1.005 * 100 is
    100.49999999999999 and rounds down. *)
Example roundTo2dp_samples :
  roundTo2dp 3.14159 = 3.14%float /\ roundTo2dp 3.296 = 3.3%float /\
  roundTo2dp 2.675 = 2.68%float /\ roundTo2dp 1.005 = 1%float /\
  roundTo2dp 0 = 0%float.
Proof. repeat split; vm_compute; reflexivity. Qed.

(** ** Facts about order-preserving sublists *)

Lemma Subsequence_filter {A : Type} (p : A -> bool) (l : list A) :
  Subsequence (filter p l) l.
Proof.
  induction l as [|x l IH]; simpl.
  - constructor.
  - destruct (p x); now constructor.
Qed.

(** ** Comparisons of binary64 values *)

Lemma SFcompare_flip (x y : spec_float) :
  SFcompare y x = option_map CompOpp (SFcompare x y).
Proof.
  destruct x as [s|s| |s m e], y as [s'|s'| |s' m' e'];
    try destruct s; try destruct s'; try reflexivity;
    cbn [SFcompare option_map];
    rewrite (Z.compare_antisym e e'); destruct (e ?= e')%Z;
    cbn [CompOpp option_map]; try reflexivity;
    change (Pos.compare_cont Eq m' m) with (Pos.compare m' m);
    change (Pos.compare_cont Eq m m') with (Pos.compare m m');
    rewrite (Pos.compare_antisym m m'); destruct (m ?= m')%positive; reflexivity.
Qed.

(** Two numbers, neither of them [NaN], are comparable: [x < y] is the
    negation of [y <= x]. *)
Lemma ltb_negb_leb (x y : float) :
  is_nan x = false -> is_nan y = false -> (x <? y)%float = negb (y <=? x)%float.
Proof.
  unfold is_nan.
  rewrite !FloatAxioms.eqb_spec, FloatAxioms.ltb_spec, FloatAxioms.leb_spec.
  unfold SFltb, SFleb, SFeqb. rewrite (SFcompare_flip (Prim2SF y) (Prim2SF x)).
  destruct (SFcompare (Prim2SF y) (Prim2SF x)) as [[]|] eqn:E; try reflexivity.
  intros Hx Hy.
  destruct (Prim2SF x) as [s|s| |s m e], (Prim2SF y) as [s'|s'| |s' m' e'];
    try discriminate; try destruct s; try destruct s'; discriminate.
Qed.

Lemma is_finite_not_nan (x : float) : is_finite x = true -> is_nan x = false.
Proof.
  unfold is_finite. destruct (is_nan x); [discriminate | reflexivity].
Qed.

Lemma Prim2SF_2 : Prim2SF 2 = S754_finite false 4503599627370496 (-51).
Proof. vm_compute. reflexivity. Qed.

Lemma Prim2SF_3_75 : Prim2SF 3.75 = S754_finite false 8444249301319680 (-51).
Proof. vm_compute. reflexivity. Qed.

Lemma compare_cont_Lt_mono (m a b : positive) :
  (a < b)%positive ->
  match Pos.compare_cont Eq m a with Lt => true | _ => false end = true ->
  match Pos.compare_cont Eq m b with Lt => true | _ => false end = true.
Proof.
  intros Hab. change (Pos.compare_cont Eq m a) with (Pos.compare m a).
  change (Pos.compare_cont Eq m b) with (Pos.compare m b).
  destruct (Pos.compare_spec m a) as [?|Hlt|?]; try discriminate.
  intros _. assert (Hlt' : (m < b)%positive) by lia.
  apply Pos.compare_lt_iff in Hlt'. now rewrite Hlt'.
Qed.

(** Below 2 is below 3.75. *)
Lemma ltb_2_ltb_3_75 (x : float) :
  (x <? 2)%float = true -> (x <? 3.75)%float = true.
Proof.
  rewrite !FloatAxioms.ltb_spec, Prim2SF_2, Prim2SF_3_75.
  unfold SFltb.
  destruct (Prim2SF x) as [s|s| |s m e]; cbn [SFcompare]; try (intros H; exact H).
  destruct s; [intros H; exact H|].
  destruct (e ?= -51)%Z; try (intros H; exact H).
  apply compare_cont_Lt_mono. vm_compute. reflexivity.
Qed.

Lemma not_nan_2 : is_nan 2 = false.
Proof. vm_compute. reflexivity. Qed.

Lemma not_nan_3_75 : is_nan 3.75 = false.
Proof. vm_compute. reflexivity. Qed.

(** The three segment rules on a CGPA that is a number: none applies to a
    CGPA below 2 with no credits, exactly one applies otherwise. *)
Lemma standing_rules_partition (x : float) (c : N) :
  is_nan x = false ->
  if (x <? 2)%float && (c =? 0)%N
  then deansListRule x c = false /\ probationSegmentRule x c = false
       /\ goodStandingRule x c = false
  else (deansListRule x c = true /\ probationSegmentRule x c = false
        /\ goodStandingRule x c = false)
       \/ (deansListRule x c = false /\ probationSegmentRule x c = true
           /\ goodStandingRule x c = false)
       \/ (deansListRule x c = false /\ probationSegmentRule x c = false
           /\ goodStandingRule x c = true).
Proof.
  intros Hx. unfold deansListRule, probationSegmentRule, goodStandingRule.
  change 2.00%float with 2%float.
  pose proof (ltb_negb_leb x 2%float Hx not_nan_2) as H2.
  pose proof (ltb_negb_leb x 3.75%float Hx not_nan_3_75) as H3.
  pose proof (ltb_2_ltb_3_75 x) as H23.
  destruct (2 <=? x)%float; simpl in H2; rewrite H2 in *;
    destruct (3.75 <=? x)%float; simpl in H3; rewrite H3 in *;
    try (specialize (H23 eq_refl); discriminate);
    destruct (N.eqb_spec c 0), (N.leb_spec 12 c), (N.ltb_spec 0 c), (N.ltb_spec c 12);
    cbn [andb orb]; try lia; tauto.
Qed.

Lemma ltb_true_leb_false (x y : float) :
  (x <? y)%float = true -> (y <=? x)%float = false.
Proof.
  rewrite FloatAxioms.ltb_spec, FloatAxioms.leb_spec. unfold SFltb, SFleb.
  rewrite (SFcompare_flip (Prim2SF x) (Prim2SF y)).
  destruct (SFcompare (Prim2SF x) (Prim2SF y)) as [[]|]; simpl; congruence.
Qed.

(** ** List facts used by the analytics *)

Lemma filter_length_split {A : Type} (p q : A -> bool) (l : list A) :
  List.length (filter p l)
  = (List.length (filter (fun x => p x && q x) l)
     + List.length (filter (fun x => p x && negb (q x)) l))%nat.
Proof.
  induction l as [|x l IH]; simpl; [reflexivity|].
  destruct (p x), (q x); simpl; lia.
Qed.

Lemma fold_left_map_add {A : Type} (f : A -> float) (l : list A) (acc : float) :
  fold_left (fun sum s => (sum + f s)%float) l acc
  = fold_left (fun a x => (a + x)%float) (map f l) acc.
Proof.
  revert acc. induction l as [|x l IH]; simpl; intros acc; [reflexivity | apply IH].
Qed.

(** ** The dashboard operations in terms of the candidate set *)

Section AnalyticsFacts.
Variable parseFloat : string -> float.
Variable semester : option string.
Variable st : MemStorage.

Lemma deansListStudents_eq :
  deansListStudents (getDashboardPerformance parseFloat semester st)
  = filter (fun s => deansListRule (parseFloat (Student.cgpa s)) (Student.credits s))
           (candidateSet semester st).
Proof. reflexivity. Qed.

Lemma probationStudents_eq :
  probationStudents (getDashboardPerformance parseFloat semester st)
  = filter (fun s => probationSegmentRule (parseFloat (Student.cgpa s)) (Student.credits s))
           (candidateSet semester st).
Proof. reflexivity. Qed.

Lemma goodStandingStudents_eq :
  goodStandingStudents (getDashboardPerformance parseFloat semester st)
  = filter (fun s => goodStandingRule (parseFloat (Student.cgpa s)) (Student.credits s))
           (candidateSet semester st).
Proof. reflexivity. Qed.

Lemma probationCount_eq :
  probationCount (getDashboardMetrics parseFloat semester st)
  = List.length (filter (fun s => probationMetricRule (parseFloat (Student.cgpa s)))
                        (candidateSet semester st)).
Proof. reflexivity. Qed.

End AnalyticsFacts.

(** ** Standing segmentation *)

(** C1.  A candidate whose parsed CGPA is below 2.00 and whose credits are 0
    is one of the students [getDashboardMetrics] counts in [probationCount]
    (that count is the number of candidates with CGPA below 2.00, whatever
    their credits), and is in none of the three lists of
    [getDashboardPerformance]; the count exceeds the probation list by the
    number of such students.  In Scenario B the metrics report
    [probationCount = 1] for 3 students while the three lists hold 2. *)
Theorem probation_metric_segment_asymmetry
  (parseFloat : string -> float) (semester : option string) (st : MemStorage)
  (s : StudentWithSubjects)
  (Hin : In s (candidateSet semester st))
  (Hlow : (parseFloat (Student.cgpa s) <? 2.00)%float = true)
  (Hzero : Student.credits s = 0%N) :
  let m := getDashboardMetrics parseFloat semester st in
  let p := getDashboardPerformance parseFloat semester st in
  let counted :=
    filter (fun x => (parseFloat (Student.cgpa x) <? 2.00)%float)
           (candidateSet semester st) in
  (probationCount m = List.length counted /\ In s counted)
  /\ ~ In s (deansListStudents p)
  /\ ~ In s (probationStudents p)
  /\ ~ In s (goodStandingStudents p)
  /\ probationCount m
     = (List.length (probationStudents p)
        + List.length
            (filter (fun x => (parseFloat (Student.cgpa x) <? 2.00)%float
                              && (Student.credits x =? 0)%N)
                    (candidateSet semester st)))%nat
  /\ (let mB := getDashboardMetrics parseDecimal None scenarioB in
      let pB := getDashboardPerformance parseDecimal None scenarioB in
      totalStudents mB = 3%nat
      /\ probationCount mB = 1%nat
      /\ (List.length (deansListStudents pB)
          + List.length (probationStudents pB)
          + List.length (goodStandingStudents pB) = 2)%nat
      /\ map Student.id (deansListStudents pB) = ["S1"]
      /\ probationStudents pB = []
      /\ map Student.id (goodStandingStudents pB) = ["S2"]).
Proof.
  intros m p counted.
  pose proof (ltb_true_leb_false _ _ Hlow) as Hge2.
  pose proof (ltb_true_leb_false _ _ (ltb_2_ltb_3_75 _ Hlow)) as Hge375.
  split; [split|split; [|split; [|split; [|split]]]].
  7: { vm_compute. repeat split. }
  - reflexivity.
  - unfold counted. apply filter_In. split; assumption.
  - unfold p. rewrite deansListStudents_eq, filter_In. unfold deansListRule.
    rewrite Hge375. simpl. intros [_ H]. discriminate.
  - unfold p. rewrite probationStudents_eq, filter_In. unfold probationSegmentRule.
    rewrite Hzero, andb_comm. simpl. intros [_ H]. discriminate.
  - unfold p. rewrite goodStandingStudents_eq, filter_In. unfold goodStandingRule.
    rewrite Hge2. simpl. intros [_ H]. discriminate.
  - unfold m, p. rewrite probationCount_eq, probationStudents_eq.
    unfold probationMetricRule, probationSegmentRule.
    rewrite (filter_length_split
               (fun x => (parseFloat (Student.cgpa x) <? 2.00)%float)
               (fun x => (0 <? Student.credits x)%N)).
    f_equal. f_equal. apply filter_ext. intros x. f_equal.
    destruct (N.ltb_spec 0 (Student.credits x)), (N.eqb_spec (Student.credits x) 0);
      simpl; try reflexivity; lia.
Qed.

Lemma probation_metric_segment_asymmetry_witness :
  let s3 := Student.withSubjects (newStudent "t3" S3) [] in
  In s3 (candidateSet None scenarioB)
  /\ (parseDecimal (Student.cgpa s3) <? 2.00)%float = true
  /\ Student.credits s3 = 0%N
  /\ probationCount (getDashboardMetrics parseDecimal None scenarioB) = 1%nat
  /\ ~ In s3 (probationStudents (getDashboardPerformance parseDecimal None scenarioB)).
Proof.
  intros s3.
  assert (Hin : In s3 (candidateSet None scenarioB)).
  { vm_compute. right. right. left. reflexivity. }
  assert (Hlow : (parseDecimal (Student.cgpa s3) <? 2.00)%float = true).
  { vm_compute. reflexivity. }
  assert (Hzero : Student.credits s3 = 0%N) by reflexivity.
  pose proof (probation_metric_segment_asymmetry parseDecimal None scenarioB s3
                Hin Hlow Hzero) as H.
  cbv zeta in H.
  destruct H as [_ [_ [Hp [_ [_ [_ [Hc _]]]]]]].
  exact (conj Hin (conj Hlow (conj Hzero (conj Hc Hp)))).
Defined.

(** C2.  When every candidate's CGPA text parses to a finite number, the
    Dean's List, probation and good-standing lists of
    [getDashboardPerformance] are order-preserving sublists of the candidate
    set, each holding exactly the candidates its rule selects; no student is
    in two of them; and a candidate is in exactly one of them, unless its
    CGPA is below 2.00 and its credits are 0, when it is in none. *)
Theorem performance_lists_partition
  (parseFloat : string -> float) (semester : option string) (st : MemStorage)
  (Hfinite : Forall (fun s => is_finite (parseFloat (Student.cgpa s)) = true)
                    (candidateSet semester st)) :
  let cands := candidateSet semester st in
  let p := getDashboardPerformance parseFloat semester st in
  let D := deansListStudents p in
  let P := probationStudents p in
  let G := goodStandingStudents p in
  (Subsequence D cands /\ Subsequence P cands /\ Subsequence G cands)
  /\ (forall s, In s D <->
        In s cands /\ deansListRule (parseFloat (Student.cgpa s)) (Student.credits s) = true)
  /\ (forall s, In s P <->
        In s cands /\ probationSegmentRule (parseFloat (Student.cgpa s)) (Student.credits s) = true)
  /\ (forall s, In s G <->
        In s cands /\ goodStandingRule (parseFloat (Student.cgpa s)) (Student.credits s) = true)
  /\ (forall s, ~ (In s D /\ In s P))
  /\ (forall s, ~ (In s D /\ In s G))
  /\ (forall s, ~ (In s P /\ In s G))
  /\ (forall s, In s cands ->
        if (parseFloat (Student.cgpa s) <? 2.00)%float && (Student.credits s =? 0)%N
        then ~ In s D /\ ~ In s P /\ ~ In s G
        else (In s D /\ ~ In s P /\ ~ In s G)
             \/ (~ In s D /\ In s P /\ ~ In s G)
             \/ (~ In s D /\ ~ In s P /\ In s G)).
Proof.
  intros cands p D P G.
  assert (HD : forall s, In s D <->
    In s cands /\ deansListRule (parseFloat (Student.cgpa s)) (Student.credits s) = true).
  { intros s. unfold D, p. rewrite deansListStudents_eq. apply filter_In. }
  assert (HP : forall s, In s P <->
    In s cands /\ probationSegmentRule (parseFloat (Student.cgpa s)) (Student.credits s) = true).
  { intros s. unfold P, p. rewrite probationStudents_eq. apply filter_In. }
  assert (HG : forall s, In s G <->
    In s cands /\ goodStandingRule (parseFloat (Student.cgpa s)) (Student.credits s) = true).
  { intros s. unfold G, p. rewrite goodStandingStudents_eq. apply filter_In. }
  assert (Hpart : forall s, In s cands ->
    if (parseFloat (Student.cgpa s) <? 2.00)%float && (Student.credits s =? 0)%N
    then ~ In s D /\ ~ In s P /\ ~ In s G
    else (In s D /\ ~ In s P /\ ~ In s G)
         \/ (~ In s D /\ In s P /\ ~ In s G)
         \/ (~ In s D /\ ~ In s P /\ In s G)).
  { intros s Hs.
    assert (Hnan : is_nan (parseFloat (Student.cgpa s)) = false).
    { apply is_finite_not_nan. revert s Hs. apply Forall_forall. exact Hfinite. }
    pose proof (standing_rules_partition (parseFloat (Student.cgpa s))
                  (Student.credits s) Hnan) as R.
    change 2.00%float with 2%float.
    destruct ((parseFloat (Student.cgpa s) <? 2)%float && (Student.credits s =? 0)%N);
      rewrite (HD s), (HP s), (HG s).
    - destruct R as [-> [-> ->]]. repeat split; intros [_ H]; discriminate.
    - destruct R as [[-> [-> ->]]|[[-> [-> ->]]|[-> [-> ->]]]];
        [left | right; left | right; right];
        repeat split; try assumption; intros [_ H]; discriminate. }
  split; [repeat split; apply Subsequence_filter|].
  split; [exact HD|]. split; [exact HP|]. split; [exact HG|].
  split; [|split; [|split]].
  - intros s [H1 H2]. assert (Hs : In s cands) by (apply HD in H1; tauto).
    specialize (Hpart s Hs). destruct (_ && _) in Hpart; tauto.
  - intros s [H1 H2]. assert (Hs : In s cands) by (apply HD in H1; tauto).
    specialize (Hpart s Hs). destruct (_ && _) in Hpart; tauto.
  - intros s [H1 H2]. assert (Hs : In s cands) by (apply HP in H1; tauto).
    specialize (Hpart s Hs). destruct (_ && _) in Hpart; tauto.
  - exact Hpart.
Qed.

Lemma performance_lists_partition_witness :
  Forall (fun s => is_finite (parseDecimal (Student.cgpa s)) = true)
         (candidateSet None scenarioB)
  /\ forall s,
       ~ (In s (deansListStudents (getDashboardPerformance parseDecimal None scenarioB))
          /\ In s (probationStudents (getDashboardPerformance parseDecimal None scenarioB))).
Proof.
  assert (Hfinite : Forall (fun s => is_finite (parseDecimal (Student.cgpa s)) = true)
                           (candidateSet None scenarioB)).
  { apply Forall_forall. intros s Hs. vm_compute in Hs.
    destruct Hs as [<-|[<-|[<-|[]]]]; vm_compute; reflexivity. }
  split; [exact Hfinite|].
  pose proof (performance_lists_partition parseDecimal None scenarioB Hfinite) as H.
  cbv zeta in H.
  destruct H as [_ [_ [_ [_ [H _]]]]]. exact H.
Defined.

(** ** Record store: create, read, update *)

Lemma or_zero_default (x : option N) :
  or_zero x = match x with Some n => n | None => 0%N end.
Proof.
  destruct x as [n|]; simpl; [|reflexivity].
  destruct (N.eqb_spec n 0); congruence.
Qed.

Lemma FieldMerged_spread {A : Type} (given : option A) (old : A) :
  FieldMerged given old (spread old given).
Proof.
  unfold FieldMerged. destruct given as [w|]; simpl; split; congruence.
Qed.

Lemma getSubjectsByStudentId_subjects (id : string) (st st' : MemStorage) :
  subjects st' = subjects st ->
  getSubjectsByStudentId id st' = getSubjectsByStudentId id st.
Proof. unfold getSubjectsByStudentId. now intros ->. Qed.

(** C3, as the code has it.  For a stored student, [updateStudent] keeps the
    record under its key, gives every field present in the partial input the
    given value, retains every field that is absent, and never alters
    [createdAt]; the record's [id] is retained when the partial input has no
    [id].  No other student and no subject changes, and the result is the
    updated record joined with its subjects. *)
Theorem updateStudent_merges_fields
  (id : string) (updateData : PartialInsertStudent.t) (st : MemStorage)
  (existing : Student.t)
  (Hfound : JsMap.get id (students st) = Some existing) :
  let st' := fst (updateStudent id updateData st) in
  exists updated : Student.t,
    JsMap.get id (students st') = Some updated
    /\ snd (updateStudent id updateData st)
       = Some (Student.withSubjects updated (getSubjectsByStudentId id st))
    /\ FieldMerged (PartialInsertStudent.id updateData)
         (Student.id existing) (Student.id updated)
    /\ FieldMerged (PartialInsertStudent.name updateData)
         (Student.name existing) (Student.name updated)
    /\ FieldMerged (PartialInsertStudent.email updateData)
         (Student.email existing) (Student.email updated)
    /\ FieldMerged (PartialInsertStudent.intake updateData)
         (Student.intake existing) (Student.intake updated)
    /\ FieldMerged (PartialInsertStudent.programme updateData)
         (Student.programme existing) (Student.programme updated)
    /\ FieldMerged (PartialInsertStudent.cgpa updateData)
         (Student.cgpa existing) (Student.cgpa updated)
    /\ FieldMerged (PartialInsertStudent.credits updateData)
         (Student.credits existing) (Student.credits updated)
    /\ FieldMerged (PartialInsertStudent.subjects updateData)
         (Student.subjects existing) (Student.subjects updated)
    /\ Student.createdAt updated = Student.createdAt existing
    /\ (PartialInsertStudent.id updateData = None -> Student.id updated = Student.id existing)
    /\ (updateData = PartialInsertStudent.none -> updated = existing)
    /\ JsMap.keys (students st') = JsMap.keys (students st)
    /\ (forall k, k <> id -> JsMap.get k (students st') = JsMap.get k (students st))
    /\ subjects st' = subjects st.
Proof.
  intros st'. unfold st', updateStudent. rewrite Hfound. cbn [fst snd students subjects].
  exists (mergeStudent existing updateData).
  split; [apply JsMapFacts.get_set_same|].
  split; [reflexivity|].
  do 8 (split; [apply FieldMerged_spread|]).
  split; [reflexivity|].
  split; [intros H; cbn [mergeStudent Student.id]; now rewrite H|].
  split; [intros ->; now destruct existing|].
  split.
  - rewrite JsMapFacts.keys_set, JsMapFacts.has_get, Hfound. reflexivity.
  - split; [|reflexivity]. intros k Hk. now apply JsMapFacts.get_set_other.
Qed.

Lemma updateStudent_merges_fields_witness :
  let st := scenarioA in
  let upd := PartialInsertStudent.mk None None None None None (Some "3.10") (Some 18%N) None in
  exists before after,
    JsMap.get "S2" (students st) = Some before
    /\ JsMap.get "S2" (students (fst (updateStudent "S2" upd st))) = Some after
    /\ Student.cgpa after = "3.10"
    /\ Student.id after = Student.id before
    /\ Student.createdAt after = Student.createdAt before.
Proof.
  intros st upd.
  assert (Hfound : JsMap.get "S2" (students st) = Some (newStudent "t2" S2))
    by reflexivity.
  destruct (updateStudent_merges_fields "S2" upd st (newStudent "t2" S2) Hfound)
    as [updated [Hget [_ [_ [_ [_ [_ [_ [[Hcgpa _] [_ [_ [Hcreated [Hid _]]]]]]]]]]]]].
  exists (newStudent "t2" S2), updated.
  split; [exact Hfound|]. split; [exact Hget|].
  split; [exact (Hcgpa _ eq_refl)|]. split; [exact (Hid eq_refl) | exact Hcreated].
Defined.

(** C3 as stated fails: a partial input that carries an [id] replaces the
    stored record's [id], so the record kept under key ["S1"] then names
    itself ["S9"]. *)
Lemma updateStudent_alters_id :
  let st := fst (createStudent "t1" S1 emptyStorage) in
  let upd := PartialInsertStudent.mk (Some "S9") None None None None None None None in
  exists before after,
    JsMap.get "S1" (students st) = Some before
    /\ JsMap.get "S1" (students (fst (updateStudent "S1" upd st))) = Some after
    /\ Student.id before = "S1"
    /\ Student.id after = "S9"
    /\ Student.id after <> Student.id before.
Proof.
  intros st upd.
  exists (newStudent "t1" S1), (mergeStudent (newStudent "t1" S1) upd).
  repeat split; discriminate.
Qed.

(** C4, as the code has it.  [createStudent] returns the new student (the
    input's fields, [credits] 0 when absent, [createdAt] the time of the
    call) joined with an empty subject list, and a following
    [getStudent(input.id)] succeeds with the same student joined with the
    stored subjects whose [studentId] is that id; the two results agree when
    the store holds no such subject. *)
Theorem createStudent_then_getStudent
  (now : string) (input : InsertStudent.t) (st : MemStorage) :
  let st' := fst (createStudent now input st) in
  let created := snd (createStudent now input st) in
  let student := newStudent now input in
  created = Student.withSubjects student []
  /\ getStudent (InsertStudent.id input) st'
     = Some (Student.withSubjects student
               (getSubjectsByStudentId (InsertStudent.id input) st))
  /\ JsMap.get (InsertStudent.id input) (students st') = Some student
  /\ (Student.id student = InsertStudent.id input
      /\ Student.name student = InsertStudent.name input
      /\ Student.email student = InsertStudent.email input
      /\ Student.intake student = InsertStudent.intake input
      /\ Student.programme student = InsertStudent.programme input
      /\ Student.cgpa student = InsertStudent.cgpa input)
  /\ Student.credits student
     = match InsertStudent.credits input with Some c => c | None => 0%N end
  /\ Student.createdAt student = now
  /\ subjects st' = subjects st
  /\ (getSubjectsByStudentId (InsertStudent.id input) st = [] ->
      getStudent (InsertStudent.id input) st' = Some created).
Proof.
  intros st' created student.
  assert (Hget : JsMap.get (InsertStudent.id input) (students st') = Some student).
  { unfold st', createStudent. cbn [fst students].
    apply (JsMapFacts.get_set_same (InsertStudent.id input) student (students st)). }
  assert (Hread : getStudent (InsertStudent.id input) st'
                  = Some (Student.withSubjects student
                            (getSubjectsByStudentId (InsertStudent.id input) st))).
  { unfold getStudent. rewrite Hget. reflexivity. }
  split; [reflexivity|]. split; [exact Hread|]. split; [exact Hget|].
  split; [repeat split|].
  split; [apply or_zero_default|].
  split; [reflexivity|]. split; [reflexivity|].
  intros Hnone. rewrite Hread, Hnone. reflexivity.
Qed.

Lemma createStudent_then_getStudent_witness :
  getSubjectsByStudentId (InsertStudent.id S1) emptyStorage = []
  /\ getStudent "S1" (fst (createStudent "t1" S1 emptyStorage))
     = Some (snd (createStudent "t1" S1 emptyStorage)).
Proof.
  split; [reflexivity|].
  destruct (createStudent_then_getStudent "t1" S1 emptyStorage)
    as [_ [_ [_ [_ [_ [_ [_ H]]]]]]].
  exact (H eq_refl).
Defined.

(** C4 as stated fails: a subject created for ["S1"] before the student
    exists is joined by the first [getStudent], so the fetched record has a
    non-empty subject list and differs from what [createStudent] returned. *)
Lemma createStudent_joined_subjects_not_empty :
  let st0 :=
    fst (createSubject "u1" (InsertSubject.mk "CS101" "Programming" None "pass" (Some "S1"))
           emptyStorage) in
  let st' := fst (createStudent "t1" S1 st0) in
  let created := snd (createStudent "t1" S1 st0) in
  exists fetched,
    getStudent "S1" st' = Some fetched
    /\ Student.subjects created = []
    /\ List.length (Student.subjects fetched) = 1%nat
    /\ fetched <> created.
Proof.
  intros st0 st' created.
  eexists. split; [reflexivity|]. split; [reflexivity|]. split; [reflexivity|].
  intros H. apply (f_equal Student.subjects) in H. discriminate H.
Qed.

(** ** Dashboard metrics *)

Lemma getDashboardMetrics_candidates
  (parseFloat : string -> float) (semester : option string) (st : MemStorage) :
  getDashboardMetrics parseFloat semester st
  = let students := candidateSet semester st in
    let cgpas := map (fun s => parseFloat (Student.cgpa s)) students in
    mkMetrics
      (List.length students)
      (List.length (filter (fun s => deansListRule (parseFloat (Student.cgpa s))
                                                   (Student.credits s)) students))
      (List.length (filter (fun s => probationMetricRule (parseFloat (Student.cgpa s)))
                           students))
      (roundTo2dp (if (0 <? List.length students)%nat then arithmeticMean cgpas
                   else 0%float)).
Proof.
  unfold getDashboardMetrics. fold (candidateSet semester st).
  cbv zeta. unfold roundTo2dp, arithmeticMean, sumOf.
  rewrite fold_left_map_add, length_map. reflexivity.
Qed.

Example floatOfInteger_samples :
  floatOfInteger false 330 = 330%float /\ floatOfInteger false (-4) = (-4)%float /\
  floatOfInteger false 0 = 0%float /\ floatOfInteger true 0 = neg_zero /\
  floatOfInteger false (2 ^ 52) = 4503599627370496%float.
Proof. repeat split; vm_compute; reflexivity. Qed.






(** ** Filtering by intake *)

Lemma KeepOnly_filter {A : Type} (p : A -> bool) (l : list A) :
  KeepOnly (fun x => p x = true) l (filter p l).
Proof.
  induction l as [|x l IH]; simpl.
  - constructor.
  - destruct (p x) eqn:E.
    + now constructor.
    + constructor; [congruence | exact IH].
Qed.

Lemma KeepOnly_iff {A : Type} (P Q : A -> Prop) (l r : list A) :
  (forall x, P x <-> Q x) -> KeepOnly P l r -> KeepOnly Q l r.
Proof.
  intros HPQ. induction 1 as [|x l r Hx _ IH|x l r Hx _ IH].
  - constructor.
  - constructor; [now apply HPQ | exact IH].
  - apply KeepOnly_drop; [|exact IH]. intros Hq. apply Hx. now apply HPQ.
Qed.

(** [KeepOnly] determines its result. *)
Lemma KeepOnly_unique {A : Type} (P : A -> Prop) (l r r' : list A) :
  KeepOnly P l r -> KeepOnly P l r' -> r = r'.
Proof.
  intros H. revert r'.
  induction H as [|x l r Hx _ IH|x l r Hx _ IH]; intros r' H'; inversion H'; subst;
    try reflexivity; try contradiction.
  - f_equal. now apply IH.
  - now apply IH.
Qed.

(** C6.  [getStudentsBySemester(k)] is [getAllStudents()] with exactly the
    students whose [intake] is the text [k] kept, in their order there; the
    comparison is exact, so a key that differs in letter case selects
    nothing. *)
Theorem getStudentsBySemester_exact_subset (k : string) (st : MemStorage) :
  let all := getAllStudents st in
  let r := getStudentsBySemester k st in
  KeepOnly (fun s => Student.intake s = k) all r
  /\ (forall r', KeepOnly (fun s => Student.intake s = k) all r' -> r' = r)
  /\ (forall s, In s r <-> In s all /\ Student.intake s = k)
  /\ Subsequence r all
  /\ (List.length (getStudentsBySemester "Jun-25" scenarioA) = 2%nat
      /\ getStudentsBySemester "jun-25" scenarioA = []
      /\ getStudentsBySemester "Jun-25 " scenarioA = []).
Proof.
  intros all r.
  assert (HK : KeepOnly (fun s => Student.intake s = k) all r).
  { unfold r, getStudentsBySemester. fold all.
    apply KeepOnly_iff with (P := fun s => String.eqb (Student.intake s) k = true).
    - intros s. apply String.eqb_eq.
    - apply KeepOnly_filter. }
  split; [exact HK|].
  split; [intros r' Hr'; exact (KeepOnly_unique _ _ _ _ Hr' HK)|].
  split.
  - intros s. unfold r, getStudentsBySemester. fold all.
    rewrite filter_In, String.eqb_eq. reflexivity.
  - split; [apply Subsequence_filter|].
    split; [reflexivity | split; reflexivity].
Qed.

(** ** Record store: missing keys, deletion, duplicate creation *)

Lemma Subsequence_map {A B : Type} (f : A -> B) (l l' : list A) :
  Subsequence l l' -> Subsequence (map f l) (map f l').
Proof.
  induction 1; simpl; now constructor.
Qed.

Lemma getStudent_students (k : string) (st st' : MemStorage) :
  subjects st' = subjects st ->
  JsMap.get k (students st') = JsMap.get k (students st) ->
  getStudent k st' = getStudent k st.
Proof.
  intros Hsub Hget. unfold getStudent. rewrite Hget.
  now rewrite (getSubjectsByStudentId_subjects k st st' Hsub).
Qed.

(** The empty store is well formed and every mutation keeps it so. *)
Lemma StoreInv_empty : StoreInv emptyStorage.
Proof. split; apply JsMapFacts.wf_empty. Qed.

Lemma StoreInv_createStudent now input st :
  StoreInv st -> StoreInv (fst (createStudent now input st)).
Proof.
  intros [Hs Hj]. split; [|exact Hj]. now apply JsMapFacts.wf_set.
Qed.

Lemma StoreInv_updateStudent id updateData st :
  StoreInv st -> StoreInv (fst (updateStudent id updateData st)).
Proof.
  intros [Hs Hj]. unfold updateStudent.
  destruct (JsMap.get id (students st)); [|now split].
  split; [|exact Hj]. now apply JsMapFacts.wf_set.
Qed.

Lemma StoreInv_deleteStudent id st :
  StoreInv st -> StoreInv (fst (deleteStudent id st)).
Proof.
  intros [Hs Hj]. split; [|exact Hj].
  exact (JsMapFacts.wf_delete id Hs).
Qed.

Lemma StoreInv_createSubject uuid subject st :
  StoreInv st -> StoreInv (fst (createSubject uuid subject st)).
Proof.
  intros [Hs Hj]. split; [exact Hs|]. now apply JsMapFacts.wf_set.
Qed.

(** Every store the program can be in holds each key once. *)
Lemma Reachable_StoreInv st : Reachable st -> StoreInv st.
Proof.
  induction 1 as [|st id subject _ IH|st now input _ IH|st id upd _ IH
                  |st id _ IH|st uuid subject _ IH].
  - apply StoreInv_empty.
  - destruct IH as [Hs Hj]. split; [exact Hs|]. now apply JsMapFacts.wf_set.
  - now apply StoreInv_createStudent.
  - now apply StoreInv_updateStudent.
  - now apply StoreInv_deleteStudent.
  - now apply StoreInv_createSubject.
Qed.

(** Creation and deletion keep every student under its own id; so does an
    update that carries no [id]. *)
Lemma KeyedById_set k x (m : JsMap.t Student.t) :
  Student.id x = k ->
  Forall (fun kv => Student.id (snd kv) = fst kv) m ->
  Forall (fun kv => Student.id (snd kv) = fst kv) (JsMap.set k x m).
Proof.
  intros Hx. induction m as [|[k0 x0] m IH]; simpl; intros Hm.
  - constructor; [exact Hx | constructor].
  - inversion_clear Hm as [|? ? H0 Hrest].
    destruct (String.eqb k k0); constructor; auto.
Qed.

Lemma KeyedById_createStudent now input st :
  KeyedById st -> KeyedById (fst (createStudent now input st)).
Proof.
  unfold KeyedById, createStudent. cbn [fst students].
  now apply KeyedById_set.
Qed.

Lemma KeyedById_deleteStudent id st :
  KeyedById st -> KeyedById (fst (deleteStudent id st)).
Proof.
  unfold KeyedById, deleteStudent. cbn [JsMap.delete fst students].
  rewrite !Forall_forall. intros H kv Hkv. apply H.
  apply filter_In in Hkv. tauto.
Qed.

Lemma KeyedById_updateStudent id updateData st :
  PartialInsertStudent.id updateData = None ->
  KeyedById st -> KeyedById (fst (updateStudent id updateData st)).
Proof.
  intros Hnone Hk. unfold updateStudent.
  destruct (JsMap.get id (students st)) as [existing|] eqn:E; [|exact Hk].
  unfold KeyedById. cbn [fst students]. apply KeyedById_set; [|exact Hk].
  cbn [mergeStudent Student.id]. rewrite Hnone. cbn [spread].
  clear -E Hk. unfold KeyedById in Hk.
  induction (students st) as [|[k0 x0] m IH]; simpl in E; [discriminate|].
  inversion Hk as [|? ? H0 Hrest]; subst. cbn [fst snd] in H0.
  destruct (String.eqb_spec id k0) as [->|Hne].
  - now inversion E; subst.
  - now apply IH.
Qed.

(** C7.  For an id the store does not hold, [updateStudent] returns
    [undefined] (the function is total, nothing is thrown) and the whole
    store, students and subjects, is the one it was given. *)
Theorem updateStudent_not_found
  (id : string) (updateData : PartialInsertStudent.t) (st : MemStorage)
  (Habsent : JsMap.has id (students st) = false) :
  updateStudent id updateData st = (st, None)
  /\ students (fst (updateStudent id updateData st)) = students st
  /\ subjects (fst (updateStudent id updateData st)) = subjects st
  /\ getAllStudents (fst (updateStudent id updateData st)) = getAllStudents st.
Proof.
  assert (E : updateStudent id updateData st = (st, None)).
  { unfold updateStudent. rewrite JsMapFacts.has_get in Habsent.
    destruct (JsMap.get id (students st)); [discriminate | reflexivity]. }
  rewrite E. repeat split.
Qed.

Lemma updateStudent_not_found_witness :
  JsMap.has "S7" (students scenarioA) = false
  /\ updateStudent "S7"
       (PartialInsertStudent.mk None (Some "Nobody") None None None None None None)
       scenarioA
     = (scenarioA, None).
Proof.
  assert (Habsent : JsMap.has "S7" (students scenarioA) = false) by reflexivity.
  split; [exact Habsent|].
  exact (proj1 (updateStudent_not_found "S7"
                  (PartialInsertStudent.mk None (Some "Nobody") None None None None None None)
                  scenarioA Habsent)).
Defined.

Lemma filter_negb_length {A : Type} (p : A -> bool) (l : list A) :
  (List.length (filter (fun x => negb (p x)) l) + List.length (filter p l)
   = List.length l)%nat.
Proof.
  induction l as [|x l IH]; simpl; [reflexivity|].
  destruct (p x); simpl; lia.
Qed.

(** C8, as the code has it.  [deleteStudent(id)] removes the entry stored
    under key [id]: [getStudent(id)] then fails and [getAllStudents()]
    lists exactly the students stored under the other keys, in their order
    (one record fewer when the key was there).  When the students are
    stored under their own id, no listed record carries [id]; a student
    that an update gave this id but that is stored under another key stays
    listed.  The result is [true] exactly when the key was there and
    nothing changes when it was not; every other student reads as before,
    and the subjects are not touched: [getSubjectsByStudentId] answers as
    before, for [id] too. *)
Theorem deleteStudent_keeps_subjects (id : string) (st : MemStorage) :
  let st' := fst (deleteStudent id st) in
  let removed := snd (deleteStudent id st) in
  JsMap.get id (students st') = None
  /\ getStudent id st' = None
  /\ (KeyedById st -> forall s, In s (getAllStudents st') -> Student.id s <> id)
  /\ Subsequence (getAllStudents st') (getAllStudents st)
  /\ (forall k, k <> id -> getStudent k st' = getStudent k st)
  /\ (removed = true <-> JsMap.get id (students st) <> None)
  /\ (removed = false -> st' = st)
  /\ subjects st' = subjects st
  /\ (forall sid, getSubjectsByStudentId sid st' = getSubjectsByStudentId sid st)
  /\ KeepOnly (fun kv => fst kv <> id) (students st) (students st')
  /\ getAllStudents st'
     = map (fun student =>
              Student.withSubjects student
                (getSubjectsByStudentId (Student.id student) st))
           (JsMap.values (students st'))
  /\ (StoreInv st -> removed = true ->
      S (List.length (getAllStudents st')) = List.length (getAllStudents st)).
Proof.
  intros st' removed.
  assert (Hst : st' = mkStorage (fst (JsMap.delete id (students st))) (subjects st))
    by reflexivity.
  assert (Hrem : removed = JsMap.has id (students st)) by reflexivity.
  assert (Hget : JsMap.get id (students st') = None).
  { rewrite Hst. apply JsMapFacts.get_delete_same. }
  split; [exact Hget|].
  split; [unfold getStudent; now rewrite Hget|].
  split.
  { intros Hkeyed s Hs. rewrite Hst in Hs. unfold getAllStudents in Hs.
    cbn [students subjects JsMap.delete fst] in Hs.
    unfold JsMap.values in Hs. rewrite map_map in Hs.
    apply in_map_iff in Hs. destruct Hs as [[k x] [<- Hkx]].
    apply filter_In in Hkx. destruct Hkx as [Hin Hneq].
    unfold KeyedById in Hkeyed. rewrite Forall_forall in Hkeyed.
    specialize (Hkeyed _ Hin). cbn [fst snd] in *. cbn [Student.withSubjects Student.id].
    rewrite Hkeyed. intros ->. now rewrite String.eqb_refl in Hneq. }
  split.
  { rewrite Hst. unfold getAllStudents, JsMap.values. cbn [students subjects JsMap.delete fst].
    apply Subsequence_map with (f := fun student =>
      Student.withSubjects student
        (getSubjectsByStudentId (Student.id student) st)).
    apply Subsequence_map. apply Subsequence_filter. }
  split.
  { intros k Hk. apply getStudent_students; [reflexivity|].
    rewrite Hst. now apply JsMapFacts.get_delete_other. }
  split.
  { rewrite Hrem, JsMapFacts.has_get.
    destruct (JsMap.get id (students st)); split; congruence. }
  split.
  { rewrite Hrem, Hst. intros Habsent.
    rewrite (JsMapFacts.delete_absent id (students st) Habsent).
    now destruct st. }
  split; [reflexivity|]. split; [reflexivity|].
  split.
  { rewrite Hst. cbn [students JsMap.delete fst].
    apply KeepOnly_iff
      with (P := fun kv : string * Student.t => negb (String.eqb id (fst kv)) = true).
    - intros kv. rewrite negb_true_iff, String.eqb_neq. split; congruence.
    - apply KeepOnly_filter. }
  split; [reflexivity|].
  intros [Hwf _] Hremoved. rewrite Hrem in Hremoved.
  rewrite Hst. unfold getAllStudents, JsMap.values. rewrite !length_map.
  cbn [students JsMap.delete fst].
  pose proof (filter_negb_length (fun kv : string * Student.t => String.eqb id (fst kv))
                (students st)) as Hlen.
  pose proof (JsMapFacts.count_wf_le id Hwf) as Hle.
  assert (Hge : (1 <= JsMap.count id (students st))%nat).
  { apply JsMapFacts.count_pos_get. rewrite JsMapFacts.has_get in Hremoved.
    destruct (JsMap.get id (students st)); [discriminate | discriminate]. }
  unfold JsMap.count in Hle, Hge. lia.
Qed.

(** C8 as stated fails.  After [updateStudent("S2", {id: "S1"})] the store
    holds two records that name themselves ["S1"]; [deleteStudent("S1")]
    answers [true] and removes the one under key ["S1"], and
    [getAllStudents()] still lists a student with id ["S1"]. *)
Lemma deleteStudent_id_still_listed :
  let st :=
    fst (updateStudent "S2"
           (PartialInsertStudent.mk (Some "S1") None None None None None None None)
           scenarioA) in
  let st' := fst (deleteStudent "S1" st) in
  Reachable st
  /\ snd (deleteStudent "S1" st) = true
  /\ JsMap.keys (students st') = ["S2"]
  /\ map Student.id (getAllStudents st') = ["S1"]
  /\ exists s, In s (getAllStudents st') /\ Student.id s = "S1".
Proof.
  intros st st'.
  split; [do 3 constructor; constructor|].
  split; [reflexivity|]. split; [reflexivity|]. split; [reflexivity|].
  eexists. split; [left; reflexivity | reflexivity].
Qed.

Lemma deleteStudent_keeps_subjects_witness :
  KeyedById scenarioB
  /\ (forall s, In s (getAllStudents (fst (deleteStudent "S3" scenarioB))) ->
        Student.id s <> "S3")
  /\ snd (deleteStudent "S3" scenarioB) = true
  /\ fst (deleteStudent "S7" scenarioB) = scenarioB.
Proof.
  assert (Hkeyed : KeyedById scenarioB) by (repeat constructor).
  destruct (deleteStudent_keeps_subjects "S3" scenarioB)
    as [_ [_ [Hgone [_ [_ [Hrem _]]]]]].
  destruct (deleteStudent_keeps_subjects "S7" scenarioB)
    as [_ [_ [_ [_ [_ [_ [Hsame _]]]]]]].
  split; [exact Hkeyed|].
  split; [exact (Hgone Hkeyed)|].
  split; [reflexivity | exact (Hsame eq_refl)].
Defined.

(** C9.  In a store whose collections are maps, two [createStudent] calls
    with the same id leave exactly one student under that key, the one built
    from the later call: its name, e-mail, intake, programme, CGPA text,
    credits (0 when absent) and subjects are those of the later input and
    its [createdAt] is the time of the later call.  The later call returns
    its student like any other (there is no error value), adds no entry, and
    keeps the keys of the store pairwise distinct. *)
Theorem createStudent_last_write_wins
  (now1 now2 : string) (a b : InsertStudent.t) (st : MemStorage)
  (Hinv : StoreInv st)
  (Hsame : InsertStudent.id a = InsertStudent.id b) :
  let st1 := fst (createStudent now1 a st) in
  let st2 := fst (createStudent now2 b st1) in
  JsMap.count (InsertStudent.id b) (students st2) = 1%nat
  /\ JsMap.get (InsertStudent.id b) (students st2) = Some (newStudent now2 b)
  /\ snd (createStudent now2 b st1) = Student.withSubjects (newStudent now2 b) []
  /\ JsMap.keys (students st2) = JsMap.keys (students st1)
  /\ List.length (getAllStudents st2) = List.length (getAllStudents st1)
  /\ (forall k, (JsMap.count k (students st2) <= 1)%nat)
  /\ StoreInv st2
  /\ (exists stored : Student.t,
        JsMap.get (InsertStudent.id b) (students st2) = Some stored
        /\ getStudent (InsertStudent.id b) st2
           = Some (Student.withSubjects stored
                     (getSubjectsByStudentId (InsertStudent.id b) st))
        /\ Student.id stored = InsertStudent.id b
        /\ Student.name stored = InsertStudent.name b
        /\ Student.email stored = InsertStudent.email b
        /\ Student.intake stored = InsertStudent.intake b
        /\ Student.programme stored = InsertStudent.programme b
        /\ Student.cgpa stored = InsertStudent.cgpa b
        /\ Student.credits stored
           = match InsertStudent.credits b with Some c => c | None => 0%N end
        /\ Student.subjects stored
           = match InsertStudent.subjects b with Some l => l | None => [] end
        /\ Student.createdAt stored = now2).
Proof.
  intros st1 st2.
  assert (Hinv1 : StoreInv st1) by (now apply StoreInv_createStudent).
  assert (Hinv2 : StoreInv st2) by (now apply StoreInv_createStudent).
  assert (Hhas : JsMap.has (InsertStudent.id b) (students st1) = true).
  { rewrite JsMapFacts.has_get. unfold st1, createStudent. cbn [fst students].
    change (Student.id (newStudent now1 a)) with (InsertStudent.id a).
    rewrite Hsame, JsMapFacts.get_set_same. reflexivity. }
  assert (Hkeys : JsMap.keys (students st2) = JsMap.keys (students st1)).
  { unfold st2, createStudent. cbn [fst students].
    change (Student.id (newStudent now2 b)) with (InsertStudent.id b).
    now rewrite JsMapFacts.keys_set, Hhas. }
  split.
  { unfold st2, createStudent. cbn [fst students].
    change (Student.id (newStudent now2 b)) with (InsertStudent.id b).
    apply JsMapFacts.count_set. exact (proj1 Hinv1). }
  split.
  { unfold st2, createStudent. cbn [fst students].
    apply (JsMapFacts.get_set_same (InsertStudent.id b)). }
  split; [reflexivity|].
  split; [exact Hkeys|].
  split.
  { unfold getAllStudents, JsMap.values. rewrite !length_map.
    apply (f_equal (@List.length string)) in Hkeys.
    unfold JsMap.keys in Hkeys. now rewrite !length_map in Hkeys. }
  split; [intros k; apply JsMapFacts.count_wf_le; exact (proj1 Hinv2)|].
  split; [exact Hinv2|].
  assert (Hget : JsMap.get (InsertStudent.id b) (students st2) = Some (newStudent now2 b)).
  { unfold st2, createStudent. cbn [fst students].
    apply (JsMapFacts.get_set_same (InsertStudent.id b)). }
  exists (newStudent now2 b).
  split; [exact Hget|].
  split; [unfold getStudent; rewrite Hget; reflexivity|].
  do 6 (split; [reflexivity|]).
  split; [apply or_zero_default|].
  split; [reflexivity | reflexivity].
Qed.

Lemma createStudent_last_write_wins_witness :
  let again := scenarioStudent "S1" "2.10" 9 in
  StoreInv emptyStorage
  /\ InsertStudent.id S1 = InsertStudent.id again
  /\ JsMap.count "S1"
       (students (fst (createStudent "t2" again (fst (createStudent "t1" S1 emptyStorage)))))
     = 1%nat
  /\ JsMap.get "S1"
       (students (fst (createStudent "t2" again (fst (createStudent "t1" S1 emptyStorage)))))
     = Some (newStudent "t2" again).
Proof.
  intros again.
  assert (Hsame : InsertStudent.id S1 = InsertStudent.id again) by reflexivity.
  destruct (createStudent_last_write_wins "t1" "t2" S1 again emptyStorage
              StoreInv_empty Hsame) as [Hcount [Hget _]].
  exact (conj StoreInv_empty (conj Hsame (conj Hcount Hget))).
Defined.

(** C10.  With the empty text as filter key both dashboard operations give
    what they give with no key and with ['all']: their candidate set is
    every student, whereas [getStudentsBySemester('')] selects only the
    students whose intake is the empty text. *)
Theorem empty_filter_key_selects_all
  (parseFloat : string -> float) (st : MemStorage) :
  getDashboardMetrics parseFloat (Some "") st = getDashboardMetrics parseFloat None st
  /\ getDashboardMetrics parseFloat (Some "all") st = getDashboardMetrics parseFloat None st
  /\ getDashboardPerformance parseFloat (Some "") st
     = getDashboardPerformance parseFloat None st
  /\ getDashboardPerformance parseFloat (Some "all") st
     = getDashboardPerformance parseFloat None st
  /\ candidateSet (Some "") st = getAllStudents st
  /\ (forall s, In s (getStudentsBySemester "" st) <->
        In s (getAllStudents st) /\ Student.intake s = "")
  /\ (getStudentsBySemester "" scenarioA = []
      /\ totalStudents (getDashboardMetrics parseDecimal (Some "") scenarioA) = 2%nat
      /\ totalStudents (getDashboardMetrics parseDecimal (Some "Sep-25") scenarioA) = 0%nat).
Proof.
  do 5 (split; [reflexivity|]).
  split.
  - intros s. unfold getStudentsBySemester.
    rewrite filter_In, String.eqb_eq. reflexivity.
  - split; [reflexivity | split; reflexivity].
Qed.

(** * Further properties of the store *)

(** ** More laws of the [Map] model *)

Module JsMapLaws.
Import JsMap.
Section WithValue.
Context {V : Type}.
Implicit Types (m : t V) (k : string) (v : V).

Lemma set_absent k v m : has k m = false -> set k v m = m ++ [(k, v)].
Proof.
  unfold has. induction m as [|[k0 v0] m IH]; simpl; [reflexivity|].
  intros H. apply orb_false_iff in H. destruct H as [Hk Hm].
  rewrite Hk. now rewrite IH.
Qed.

Lemma set_same_value k v m : get k m = Some v -> set k v m = m.
Proof.
  induction m as [|[k0 v0] m IH]; simpl; [discriminate|].
  destruct (String.eqb_spec k k0) as [->|Hne].
  - now intros [= ->].
  - intros H. now rewrite IH.
Qed.

Lemma set_set k v1 v2 m : set k v2 (set k v1 m) = set k v2 m.
Proof.
  induction m as [|[k0 v0] m IH]; simpl.
  - now rewrite String.eqb_refl.
  - destruct (String.eqb k k0) eqn:E; simpl.
    + now rewrite String.eqb_refl.
    + now rewrite E, IH.
Qed.

Lemma has_set k v m : has k (set k v m) = true.
Proof.
  rewrite JsMapFacts.has_get, JsMapFacts.get_set_same. reflexivity.
Qed.

Lemma delete_set k v m : fst (delete k (set k v m)) = fst (delete k m).
Proof.
  unfold delete. cbn [fst].
  induction m as [|[k0 v0] m IH]; simpl.
  - now rewrite String.eqb_refl.
  - destruct (String.eqb k k0) eqn:E; simpl.
    + now rewrite String.eqb_refl.
    + now rewrite E, IH.
Qed.

Lemma delete_delete k m : delete k (fst (delete k m)) = (fst (delete k m), false).
Proof.
  assert (Hhas : has k (fst (delete k m)) = false).
  { rewrite JsMapFacts.has_get, JsMapFacts.get_delete_same. reflexivity. }
  unfold delete at 1. rewrite Hhas. f_equal.
  exact (JsMapFacts.delete_absent k (fst (delete k m)) Hhas).
Qed.

Lemma delete_comm k k' m :
  fst (delete k (fst (delete k' m))) = fst (delete k' (fst (delete k m))).
Proof.
  unfold delete. cbn [fst].
  induction m as [|[k0 v0] m IH]; simpl; [reflexivity|].
  destruct (String.eqb k' k0) eqn:E', (String.eqb k k0) eqn:E; simpl;
    rewrite ?E, ?E'; simpl; now rewrite IH.
Qed.

Lemma get_In k v m : get k m = Some v -> In (k, v) m.
Proof.
  induction m as [|[k0 v0] m IH]; simpl; [discriminate|].
  destruct (String.eqb_spec k k0) as [->|Hne].
  - intros [= ->]. now left.
  - intros H. right. now apply IH.
Qed.

Lemma wf_In_get k v m : wf m -> In (k, v) m -> get k m = Some v.
Proof.
  unfold wf. induction m as [|[k0 v0] m IH]; simpl; [tauto|].
  intros Hwf Hin. inversion Hwf as [|? ? Hk0 Hm]; subst.
  destruct Hin as [[= -> ->]|Hin].
  - now rewrite String.eqb_refl.
  - destruct (String.eqb_spec k k0) as [->|Hne]; [|now apply IH].
    exfalso. apply Hk0. unfold keys. change k0 with (fst (k0, v)).
    now apply in_map.
Qed.

Lemma values_set_absent k v m : has k m = false -> values (set k v m) = values m ++ [v].
Proof.
  intros H. rewrite (set_absent k v m H). unfold values. now rewrite map_app.
Qed.

End WithValue.
End JsMapLaws.

(** ** Lookup by e-mail *)

Lemma find_map_pred {A B : Type} (f : A -> B) (p : B -> bool) (l : list A) :
  find p (map f l) = option_map f (find (fun x => p (f x)) l).
Proof.
  induction l as [|x l IH]; simpl; [reflexivity|].
  destruct (p (f x)); [reflexivity | exact IH].
Qed.

Lemma find_none_iff {A : Type} (p : A -> bool) (l : list A) :
  find p l = None <-> forall x, In x l -> p x = false.
Proof.
  split.
  - intros H x Hx. exact (find_none p l H x Hx).
  - induction l as [|x l IH]; simpl; [reflexivity|].
    intros H. rewrite (H x (or_introl eq_refl)). apply IH.
    intros y Hy. apply H. now right.
Qed.

(** X1.  [getStudentByEmail(email)] is the first record of
    [getAllStudents()], in insertion order, whose [email] is exactly
    [email], joined as it is there; it is [undefined] exactly when no
    student has that e-mail, and with several matches the oldest wins. *)
Theorem getStudentByEmail_first_match (email : string) (st : MemStorage) :
  getStudentByEmail email st
  = find (fun s => String.eqb (Student.email s) email) (getAllStudents st)
  /\ (forall s, getStudentByEmail email st = Some s ->
        In s (getAllStudents st) /\ Student.email s = email
        /\ Student.subjects s = getSubjectsByStudentId (Student.id s) st)
  /\ (getStudentByEmail email st = None <->
      forall s, In s (getAllStudents st) -> Student.email s <> email).
Proof.
  assert (E : getStudentByEmail email st
              = find (fun s => String.eqb (Student.email s) email) (getAllStudents st)).
  { unfold getStudentByEmail, getAllStudents. rewrite find_map_pred.
    cbn [Student.withSubjects Student.email].
    destruct (find _ (JsMap.values (students st))); reflexivity. }
  split; [exact E|]. rewrite E. split.
  - intros s Hs. pose proof (find_some _ _ Hs) as [Hin Heq].
    split; [exact Hin|]. split; [now apply String.eqb_eq|].
    unfold getAllStudents in Hin. apply in_map_iff in Hin.
    destruct Hin as [x [<- _]]. reflexivity.
  - rewrite find_none_iff. split; intros H s Hs.
    + apply String.eqb_neq. now apply H.
    + apply String.eqb_neq. now apply H.
Qed.

Lemma find_set_first (email : string) (k : string) (x : Student.t)
  (m : JsMap.t Student.t) :
  Student.email x = email ->
  (forall k' y, In (k', y) m -> k' <> k -> Student.email y <> email) ->
  find (fun s => String.eqb (Student.email s) email) (JsMap.values (JsMap.set k x m))
  = Some x.
Proof.
  intros Hx. induction m as [|[k0 x0] m IH]; simpl; intros Hm.
  - apply String.eqb_eq in Hx. now rewrite Hx.
  - destruct (String.eqb_spec k k0) as [->|Hne]; simpl.
    + apply String.eqb_eq in Hx. now rewrite Hx.
    + assert (H0 : String.eqb (Student.email x0) email = false).
      { apply String.eqb_neq. apply (Hm k0 x0); [now left | congruence]. }
      rewrite H0. apply IH. intros k' y Hy. apply Hm. now right.
Qed.

(** X2.  When no student stored under another key has the new student's
    e-mail, [getStudentByEmail(input.email)] right after
    [createStudent(input)] finds the created student, joined with the
    subjects stored for its id. *)
Theorem createStudent_then_getStudentByEmail
  (now : string) (input : InsertStudent.t) (st : MemStorage)
  (Hunique : forall k y, In (k, y) (students st) -> k <> InsertStudent.id input ->
                         Student.email y <> InsertStudent.email input) :
  getStudentByEmail (InsertStudent.email input) (fst (createStudent now input st))
  = Some (Student.withSubjects (newStudent now input)
            (getSubjectsByStudentId (InsertStudent.id input) st)).
Proof.
  unfold getStudentByEmail, createStudent. cbn [fst students].
  change (Student.id (newStudent now input)) with (InsertStudent.id input).
  rewrite (find_set_first (InsertStudent.email input) (InsertStudent.id input)
             (newStudent now input) (students st) eq_refl Hunique).
  reflexivity.
Qed.

Lemma createStudent_then_getStudentByEmail_witness :
  (forall k y, In (k, y) (students scenarioA) -> k <> InsertStudent.id S3 ->
               Student.email y <> InsertStudent.email S3)
  /\ getStudentByEmail "S3@uow.edu.my" (fst (createStudent "t3" S3 scenarioA))
     = Some (Student.withSubjects (newStudent "t3" S3) []).
Proof.
  assert (Hunique : forall k y, In (k, y) (students scenarioA) ->
                      k <> InsertStudent.id S3 ->
                      Student.email y <> InsertStudent.email S3).
  { intros k y Hin _. vm_compute in Hin.
    destruct Hin as [[= <- <-]|[[= <- <-]|[]]]; discriminate. }
  split; [exact Hunique|].
  exact (createStudent_then_getStudentByEmail "t3" S3 scenarioA Hunique).
Defined.

(** ** Reads agree with each other *)

Lemma getAllStudents_ids (st : MemStorage) :
  KeyedById st -> map Student.id (getAllStudents st) = JsMap.keys (students st).
Proof.
  unfold KeyedById, getAllStudents, JsMap.values, JsMap.keys.
  rewrite !map_map. cbn [Student.withSubjects Student.id].
  induction (students st) as [|[k x] m IH]; simpl; intros H; [reflexivity|].
  inversion_clear H as [|? ? Hx Hm]. cbn [fst snd] in Hx. rewrite Hx. f_equal. now apply IH.
Qed.

(** X3.  In a store whose maps hold each key once and each student under
    its own id, [getStudent(id)] returns a record exactly when
    [getAllStudents()] lists that record with this id: the two reads join
    the same subjects. *)
Theorem getStudent_iff_listed
  (id : string) (s : StudentWithSubjects) (st : MemStorage)
  (Hinv : StoreInv st) (Hkeyed : KeyedById st) :
  getStudent id st = Some s <-> In s (getAllStudents st) /\ Student.id s = id.
Proof.
  unfold KeyedById in Hkeyed. rewrite Forall_forall in Hkeyed.
  unfold getStudent, getAllStudents, JsMap.values. rewrite map_map. split.
  - destruct (JsMap.get id (students st)) as [x|] eqn:E; [|discriminate].
    intros [= <-]. pose proof (JsMapLaws.get_In _ _ _ E) as Hin.
    pose proof (Hkeyed _ Hin) as Hid. cbn [fst snd] in Hid.
    split; [|exact Hid].
    apply in_map_iff. exists (id, x). cbn [snd]. rewrite Hid. split; [reflexivity | exact Hin].
  - intros [Hin Hid]. apply in_map_iff in Hin. destruct Hin as [[k x] [Hs Hin]].
    cbn [snd] in Hs.
    pose proof (Hkeyed _ Hin) as Hk. cbn [fst snd] in Hk.
    assert (Hx : Student.id x = id) by (now rewrite <- Hid, <- Hs).
    assert (Hkid : k = id) by (now rewrite <- Hk).
    rewrite Hkid in Hin.
    rewrite (JsMapLaws.wf_In_get id x (students st) (proj1 Hinv) Hin).
    now rewrite <- Hs, Hx.
Qed.

Lemma getStudent_iff_listed_witness :
  StoreInv scenarioB /\ KeyedById scenarioB
  /\ In (Student.withSubjects (newStudent "t2" S2) []) (getAllStudents scenarioB).
Proof.
  assert (Hinv : StoreInv scenarioB).
  { do 3 apply StoreInv_createStudent. apply StoreInv_empty. }
  assert (Hkeyed : KeyedById scenarioB) by (repeat constructor).
  split; [exact Hinv|]. split; [exact Hkeyed|].
  exact (proj1 (proj1 (getStudent_iff_listed "S2"
                         (Student.withSubjects (newStudent "t2" S2) [])
                         scenarioB Hinv Hkeyed) eq_refl)).
Defined.

(** X4.  In such a store the ids listed by [getAllStudents()] are the keys
    of the student map in insertion order and no id is listed twice. *)
Theorem getAllStudents_ids_distinct (st : MemStorage)
  (Hinv : StoreInv st) (Hkeyed : KeyedById st) :
  map Student.id (getAllStudents st) = JsMap.keys (students st)
  /\ NoDup (map Student.id (getAllStudents st)).
Proof.
  rewrite (getAllStudents_ids st Hkeyed). split; [reflexivity | exact (proj1 Hinv)].
Qed.

Lemma getAllStudents_ids_distinct_witness :
  StoreInv scenarioB /\ KeyedById scenarioB
  /\ map Student.id (getAllStudents scenarioB) = ["S1"; "S2"; "S3"].
Proof.
  assert (Hinv : StoreInv scenarioB).
  { do 3 apply StoreInv_createStudent. apply StoreInv_empty. }
  assert (Hkeyed : KeyedById scenarioB) by (repeat constructor).
  split; [exact Hinv|]. split; [exact Hkeyed|].
  rewrite (proj1 (getAllStudents_ids_distinct scenarioB Hinv Hkeyed)). reflexivity.
Defined.

(** ** Creation order, creation and deletion *)

Lemma getAllStudents_same_subjects (st st' : MemStorage) :
  subjects st' = subjects st ->
  getAllStudents st'
  = map (fun student =>
           Student.withSubjects student
             (getSubjectsByStudentId (Student.id student) st))
        (JsMap.values (students st')).
Proof.
  intros H. unfold getAllStudents. apply map_ext. intros x.
  now rewrite (getSubjectsByStudentId_subjects (Student.id x) st st' H).
Qed.

(** X5.  [createStudent] with an id the store does not hold appends the new
    student at the end of [getAllStudents()]; with an id it holds, the
    record is replaced where it stands (the key sequence and the number of
    students are unchanged).  Either way every other key reads as before. *)
Theorem createStudent_insertion_order
  (now : string) (input : InsertStudent.t) (st : MemStorage) :
  let id := InsertStudent.id input in
  let st' := fst (createStudent now input st) in
  (JsMap.has id (students st) = false ->
   getAllStudents st'
   = getAllStudents st
     ++ [Student.withSubjects (newStudent now input) (getSubjectsByStudentId id st)])
  /\ (JsMap.has id (students st) = true ->
      JsMap.keys (students st') = JsMap.keys (students st)
      /\ List.length (getAllStudents st') = List.length (getAllStudents st))
  /\ (forall k, k <> id -> getStudent k st' = getStudent k st).
Proof.
  intros id st'.
  assert (Hst : students st' = JsMap.set id (newStudent now input) (students st))
    by reflexivity.
  split; [|split].
  - intros Habsent.
    rewrite (getAllStudents_same_subjects st st' eq_refl), Hst.
    rewrite (JsMapLaws.values_set_absent id (newStudent now input) (students st) Habsent).
    rewrite map_app. reflexivity.
  - intros Hpresent.
    assert (Hkeys : JsMap.keys (students st') = JsMap.keys (students st)).
    { rewrite Hst, JsMapFacts.keys_set, Hpresent. reflexivity. }
    split; [exact Hkeys|].
    unfold getAllStudents, JsMap.values. rewrite !length_map.
    apply (f_equal (@List.length string)) in Hkeys.
    unfold JsMap.keys in Hkeys. now rewrite !length_map in Hkeys.
  - intros k Hk. apply getStudent_students; [reflexivity|].
    rewrite Hst. now apply JsMapFacts.get_set_other.
Qed.

Lemma createStudent_insertion_order_witness :
  JsMap.has "S3" (students scenarioA) = false
  /\ map Student.id (getAllStudents (fst (createStudent "t3" S3 scenarioA)))
     = ["S1"; "S2"; "S3"]
  /\ JsMap.has "S1" (students scenarioA) = true
  /\ JsMap.keys (students (fst (createStudent "t9" (scenarioStudent "S1" "2.10" 9) scenarioA)))
     = ["S1"; "S2"].
Proof.
  destruct (createStudent_insertion_order "t3" S3 scenarioA) as [Happend _].
  destruct (createStudent_insertion_order "t9" (scenarioStudent "S1" "2.10" 9) scenarioA)
    as [_ [Hkeep _]].
  split; [reflexivity|]. split.
  - cbv zeta in Happend. rewrite (Happend eq_refl). reflexivity.
  - split; [reflexivity|]. cbv zeta in Hkeep. rewrite (proj1 (Hkeep eq_refl)). reflexivity.
Defined.

(** X6.  Deleting the id just created undoes the creation: [deleteStudent]
    answers [true] and leaves the store that deleting from the original
    store leaves, which is the original store when it did not hold the
    id. *)
Theorem createStudent_then_deleteStudent
  (now : string) (input : InsertStudent.t) (st : MemStorage) :
  let id := InsertStudent.id input in
  let st1 := fst (createStudent now input st) in
  deleteStudent id st1 = (fst (deleteStudent id st), true)
  /\ (JsMap.has id (students st) = false -> fst (deleteStudent id st1) = st).
Proof.
  intros id st1.
  assert (E : deleteStudent id st1 = (fst (deleteStudent id st), true)).
  { unfold deleteStudent, st1, createStudent. cbn [fst students subjects JsMap.delete].
    change (Student.id (newStudent now input)) with id.
    rewrite JsMapLaws.has_set. f_equal. f_equal.
    exact (JsMapLaws.delete_set id (newStudent now input) (students st)). }
  split; [exact E|].
  intros Habsent. rewrite E. cbn [fst]. unfold deleteStudent.
  cbn [JsMap.delete fst].
  change (filter (fun kv => negb (String.eqb id (fst kv))) (students st))
    with (fst (JsMap.delete id (students st))).
  rewrite (JsMapFacts.delete_absent id (students st) Habsent). now destruct st.
Qed.

Lemma createStudent_then_deleteStudent_witness :
  JsMap.has "S3" (students scenarioA) = false
  /\ fst (deleteStudent "S3" (fst (createStudent "t3" S3 scenarioA))) = scenarioA.
Proof.
  split; [reflexivity|].
  exact (proj2 (createStudent_then_deleteStudent "t3" S3 scenarioA) eq_refl).
Defined.

(** X7.  [deleteStudent] is idempotent and order-independent: a repeated
    delete of the same id answers [false] and changes nothing, and deleting
    two ids leaves the same store in either order. *)
Theorem deleteStudent_idempotent_commutes (id id' : string) (st : MemStorage) :
  deleteStudent id (fst (deleteStudent id st)) = (fst (deleteStudent id st), false)
  /\ fst (deleteStudent id (fst (deleteStudent id' st)))
     = fst (deleteStudent id' (fst (deleteStudent id st))).
Proof.
  split.
  - unfold deleteStudent at 1.
    change (students (fst (deleteStudent id st)))
      with (fst (JsMap.delete id (students st))).
    rewrite JsMapLaws.delete_delete. reflexivity.
  - unfold deleteStudent. cbn [JsMap.delete fst students subjects]. f_equal.
    exact (JsMapLaws.delete_comm id id' (students st)).
Qed.

(** ** Updates *)

Lemma spread_laterOr {A : Type} (a : A) (o1 o2 : option A) :
  spread (spread a o1) o2 = spread a (laterOr o2 o1).
Proof. destruct o2, o1; reflexivity. Qed.

Lemma laterOr_same {A : Type} (o : option A) : laterOr o o = o.
Proof. now destruct o. Qed.

Lemma mergeStudent_overlay (e : Student.t) (u1 u2 : PartialInsertStudent.t) :
  mergeStudent (mergeStudent e u1) u2 = mergeStudent e (overlayPartial u1 u2).
Proof.
  unfold mergeStudent, overlayPartial.
  cbn [Student.id Student.name Student.email Student.intake Student.programme
       Student.cgpa Student.credits Student.subjects Student.createdAt
       PartialInsertStudent.id PartialInsertStudent.name PartialInsertStudent.email
       PartialInsertStudent.intake PartialInsertStudent.programme
       PartialInsertStudent.cgpa PartialInsertStudent.credits
       PartialInsertStudent.subjects].
  now rewrite !spread_laterOr.
Qed.

Lemma overlayPartial_same (u : PartialInsertStudent.t) : overlayPartial u u = u.
Proof.
  destruct u. unfold overlayPartial.
  cbn [PartialInsertStudent.id PartialInsertStudent.name PartialInsertStudent.email
       PartialInsertStudent.intake PartialInsertStudent.programme
       PartialInsertStudent.cgpa PartialInsertStudent.credits
       PartialInsertStudent.subjects].
  now rewrite !laterOr_same.
Qed.

(** X8.  What [updateStudent] returns is what [getStudent] reads right
    after it, found or not; it returns [undefined] exactly when the store
    does not hold the id. *)
Theorem updateStudent_then_getStudent
  (id : string) (updateData : PartialInsertStudent.t) (st : MemStorage) :
  getStudent id (fst (updateStudent id updateData st))
  = snd (updateStudent id updateData st)
  /\ (snd (updateStudent id updateData st) = None
      <-> JsMap.has id (students st) = false).
Proof.
  rewrite JsMapFacts.has_get. unfold updateStudent.
  destruct (JsMap.get id (students st)) as [existing|] eqn:E; cbn [fst snd].
  - split; [|split; discriminate].
    unfold getStudent. cbn [students]. now rewrite JsMapFacts.get_set_same.
  - split; [|split; reflexivity]. unfold getStudent. now rewrite E.
Qed.

(** X9.  An update with no field, [updateStudent(id, {})], changes nothing
    in the store and returns what [getStudent(id)] returns. *)
Theorem updateStudent_empty_input (id : string) (st : MemStorage) :
  updateStudent id PartialInsertStudent.none st = (st, getStudent id st).
Proof.
  unfold updateStudent, getStudent.
  destruct (JsMap.get id (students st)) as [existing|] eqn:E; [|reflexivity].
  assert (Hm : mergeStudent existing PartialInsertStudent.none = existing)
    by (now destruct existing).
  rewrite Hm, (JsMapLaws.set_same_value id existing (students st) E). now destruct st.
Qed.

(** X10.  Two updates of the same id in a row are one update with the two
    partial inputs merged, the later input winning field by field; so
    repeating an update changes nothing more. *)
Theorem updateStudent_compose
  (id : string) (u1 u2 : PartialInsertStudent.t) (st : MemStorage) :
  updateStudent id u2 (fst (updateStudent id u1 st))
  = updateStudent id (overlayPartial u1 u2) st
  /\ updateStudent id u1 (fst (updateStudent id u1 st)) = updateStudent id u1 st.
Proof.
  assert (H : forall a b,
    updateStudent id b (fst (updateStudent id a st))
    = updateStudent id (overlayPartial a b) st).
  { intros a b. unfold updateStudent.
    destruct (JsMap.get id (students st)) as [existing|] eqn:E; cbn [fst].
    - cbn [students subjects]. rewrite JsMapFacts.get_set_same.
      rewrite JsMapLaws.set_set, mergeStudent_overlay. reflexivity.
    - now rewrite E. }
  split; [apply H|]. now rewrite H, overlayPartial_same.
Qed.

(** ** Subjects *)

Lemma getSubjectsByStudentId_createSubject
  (uuid : string) (subject : InsertSubject.t) (st : MemStorage) (k : string) :
  JsMap.has uuid (subjects st) = false ->
  getSubjectsByStudentId k (fst (createSubject uuid subject st))
  = getSubjectsByStudentId k st
    ++ (if strict_eq (or_null (InsertSubject.studentId subject)) k
        then [snd (createSubject uuid subject st)] else []).
Proof.
  intros Hfresh. unfold getSubjectsByStudentId, createSubject. cbn [fst snd subjects].
  rewrite (JsMapLaws.values_set_absent uuid _ (subjects st) Hfresh).
  rewrite filter_app. cbn [filter Subject.studentId]. reflexivity.
Qed.

Lemma strict_eq_or_null (x : option string) (k : string) :
  strict_eq (or_null x) k = true <-> x = Some k /\ k <> "".
Proof.
  destruct x as [s|]; simpl; [|split; [discriminate | intros [H _]; discriminate]].
  destruct (String.eqb_spec s "") as [->|Hs]; simpl.
  - split; [discriminate | intros [[= <-] H]; congruence].
  - rewrite String.eqb_eq. split; [intros ->; now split | intros [[= ->] _]; reflexivity].
Qed.

(** X11.  [createSubject] with a fresh key and a non-empty [studentId]
    appends the new subject at the end of that student's
    [getSubjectsByStudentId] list and changes no other student's list; a
    subject created with no [studentId], or with the empty text, is in no
    list at all, not even the one for the empty key.  The students are not
    touched, and no student need exist under the [studentId]. *)
Theorem createSubject_then_getSubjectsByStudentId
  (uuid : string) (subject : InsertSubject.t) (st : MemStorage)
  (Hfresh : JsMap.has uuid (subjects st) = false) :
  let st' := fst (createSubject uuid subject st) in
  let created := snd (createSubject uuid subject st) in
  (forall sid, InsertSubject.studentId subject = Some sid -> sid <> "" ->
     getSubjectsByStudentId sid st' = getSubjectsByStudentId sid st ++ [created]
     /\ forall k, k <> sid -> getSubjectsByStudentId k st' = getSubjectsByStudentId k st)
  /\ (InsertSubject.studentId subject = None \/ InsertSubject.studentId subject = Some "" ->
      Subject.studentId created = None
      /\ forall k, getSubjectsByStudentId k st' = getSubjectsByStudentId k st)
  /\ students st' = students st.
Proof.
  intros st' created.
  assert (H : forall k, getSubjectsByStudentId k st'
    = getSubjectsByStudentId k st
      ++ (if strict_eq (or_null (InsertSubject.studentId subject)) k
          then [created] else [])).
  { intros k. exact (getSubjectsByStudentId_createSubject uuid subject st k Hfresh). }
  split; [|split; [|reflexivity]].
  - intros sid Hsid Hne. split.
    + rewrite H. now rewrite (proj2 (strict_eq_or_null _ sid) (conj Hsid Hne)).
    + intros k Hk. rewrite H.
      destruct (strict_eq (or_null (InsertSubject.studentId subject)) k) eqn:E;
        [|apply app_nil_r].
      apply strict_eq_or_null in E. destruct E as [E _]. congruence.
  - intros Hnone. split.
    + unfold created, createSubject. cbn [snd Subject.studentId].
      destruct Hnone as [-> | ->]; reflexivity.
    + intros k. rewrite H.
      destruct (strict_eq (or_null (InsertSubject.studentId subject)) k) eqn:E;
        [|apply app_nil_r].
      apply strict_eq_or_null in E. destruct E as [E Hk].
      destruct Hnone as [Hn | Hn]; rewrite Hn in E; [discriminate|].
      injection E as <-. congruence.
Qed.

Lemma createSubject_then_getSubjectsByStudentId_witness :
  let subject := InsertSubject.mk "CS101" "Programming" (Some "A") "pass" (Some "S1") in
  JsMap.has "u1" (subjects scenarioA) = false
  /\ getSubjectsByStudentId "S1" (fst (createSubject "u1" subject scenarioA))
     = [Subject.mk "u1" "CS101" "Programming" (Some "A") "pass" (Some "S1")]
  /\ getSubjectsByStudentId "S2" (fst (createSubject "u1" subject scenarioA)) = [].
Proof.
  intros subject.
  assert (Hfresh : JsMap.has "u1" (subjects scenarioA) = false) by reflexivity.
  destruct (createSubject_then_getSubjectsByStudentId "u1" subject scenarioA Hfresh)
    as [H _].
  cbv zeta in H. destruct (H "S1" eq_refl) as [Hown Hother]; [discriminate|].
  split; [exact Hfresh|]. split.
  - rewrite Hown. reflexivity.
  - rewrite (Hother "S2"); [reflexivity | discriminate].
Defined.

(** X12.  After [createSubject] with a fresh key for the id of a stored
    student, [getStudent] for that id returns the same student with the new
    subject added at the end of its joined subjects. *)
Theorem createSubject_then_getStudent
  (uuid : string) (subject : InsertSubject.t) (st : MemStorage)
  (sid : string) (s : StudentWithSubjects)
  (Hfresh : JsMap.has uuid (subjects st) = false)
  (Hsid : InsertSubject.studentId subject = Some sid)
  (Hne : sid <> "")
  (Hfound : getStudent sid st = Some s) :
  getStudent sid (fst (createSubject uuid subject st))
  = Some (Student.withSubjects s
            (Student.subjects s ++ [snd (createSubject uuid subject st)])).
Proof.
  unfold getStudent in *. cbn [fst createSubject students].
  destruct (JsMap.get sid (students st)) as [x|]; [|discriminate].
  injection Hfound as <-.
  change (mkStorage (students st) _) with (fst (createSubject uuid subject st)).
  rewrite (getSubjectsByStudentId_createSubject uuid subject st sid Hfresh).
  rewrite (proj2 (strict_eq_or_null _ sid) (conj Hsid Hne)). reflexivity.
Qed.

Lemma createSubject_then_getStudent_witness :
  let subject := InsertSubject.mk "CS101" "Programming" None "enrolled" (Some "S2") in
  exists s,
    getStudent "S2" scenarioA = Some s
    /\ getStudent "S2" (fst (createSubject "u1" subject scenarioA))
       = Some (Student.withSubjects s
                 [Subject.mk "u1" "CS101" "Programming" None "enrolled" (Some "S2")]).
Proof.
  intros subject. exists (Student.withSubjects (newStudent "t2" S2) []).
  split; [reflexivity|].
  assert (Hne : "S2" <> "") by discriminate.
  exact (createSubject_then_getStudent "u1" subject scenarioA "S2"
           (Student.withSubjects (newStudent "t2" S2) [])
           eq_refl eq_refl Hne eq_refl).
Defined.

(** X13.  [getSubjectsByStudentId(id)] is the stored subjects with exactly
    those whose [studentId] is [id] kept, in store order; a subject is in the
    list of one id at most, and one whose [studentId] is [null] is in
    none. *)
Theorem getSubjectsByStudentId_ownership (id : string) (st : MemStorage) :
  KeepOnly (fun sub => Subject.studentId sub = Some id)
           (JsMap.values (subjects st)) (getSubjectsByStudentId id st)
  /\ (forall sub, In sub (getSubjectsByStudentId id st) <->
        In sub (JsMap.values (subjects st)) /\ Subject.studentId sub = Some id)
  /\ (forall id' sub, In sub (getSubjectsByStudentId id st) ->
        In sub (getSubjectsByStudentId id' st) -> id' = id).
Proof.
  assert (Hiff : forall k sub,
    strict_eq (Subject.studentId sub) k = true <-> Subject.studentId sub = Some k).
  { intros k sub. unfold strict_eq. destruct (Subject.studentId sub) as [y|].
    - rewrite String.eqb_eq. split; [now intros -> | now intros [= ->]].
    - split; discriminate. }
  split; [|split].
  - unfold getSubjectsByStudentId.
    apply KeepOnly_iff with (P := fun sub => strict_eq (Subject.studentId sub) id = true).
    + intros sub. apply Hiff.
    + apply KeepOnly_filter.
  - intros sub. unfold getSubjectsByStudentId. rewrite filter_In, Hiff. reflexivity.
  - intros id' sub H H'. unfold getSubjectsByStudentId in *.
    apply filter_In in H. apply filter_In in H'.
    destruct H as [_ H], H' as [_ H']. apply Hiff in H. apply Hiff in H'. congruence.
Qed.

(** ** Dashboard counts *)

Lemma filter_exclusive_length {A : Type} (p q : A -> bool) (l : list A) :
  (forall x, p x = true -> q x = true -> False) ->
  (List.length (filter p l) + List.length (filter q l) <= List.length l)%nat.
Proof.
  intros Hex. induction l as [|x l IH]; simpl; [lia|].
  destruct (p x) eqn:Ep, (q x) eqn:Eq; simpl; try lia.
  exfalso. exact (Hex x Ep Eq).
Qed.

(** X14.  Whatever the candidates' CGPA texts parse to, the Dean's List
    count and the probation count of [getDashboardMetrics] together never
    exceed [totalStudents]: no student is counted in both. *)
Theorem dashboard_counts_bounded
  (parseFloat : string -> float) (semester : option string) (st : MemStorage) :
  let m := getDashboardMetrics parseFloat semester st in
  (deansListCount m + probationCount m <= totalStudents m)%nat
  /\ (deansListCount m <= totalStudents m)%nat
  /\ (probationCount m <= totalStudents m)%nat.
Proof.
  intros m.
  assert (H : (deansListCount m + probationCount m <= totalStudents m)%nat).
  { unfold m. rewrite getDashboardMetrics_candidates. cbv zeta.
    cbn [deansListCount probationCount totalStudents].
    apply filter_exclusive_length. intros x Hd Hp.
    unfold deansListRule in Hd. unfold probationMetricRule in Hp.
    apply andb_prop in Hd. destruct Hd as [Hd _].
    pose proof (ltb_true_leb_false _ _ (ltb_2_ltb_3_75 _ Hp)) as Hc. congruence. }
  split; [exact H | split; lia].
Qed.

Lemma partition_length {A : Type} (d p g z : A -> bool) (l : list A) :
  Forall (fun x => (Nat.b2n (d x) + Nat.b2n (p x) + Nat.b2n (g x) + Nat.b2n (z x) = 1)%nat) l ->
  List.length l
  = (List.length (filter d l) + List.length (filter p l)
     + List.length (filter g l) + List.length (filter z l))%nat.
Proof.
  induction 1 as [|x l Hx _ IH]; simpl; [reflexivity|].
  destruct (d x), (p x), (g x), (z x); simpl in *; lia.
Qed.

(** X15.  When every candidate's CGPA parses to a finite number,
    [totalStudents] is the sum of the sizes of the three lists of
    [getDashboardPerformance] and the number of candidates with CGPA below
    2.00 and no credits; [deansListCount] is the size of the Dean's List. *)
Theorem dashboard_totals_agree
  (parseFloat : string -> float) (semester : option string) (st : MemStorage)
  (Hfinite : Forall (fun s => is_finite (parseFloat (Student.cgpa s)) = true)
                    (candidateSet semester st)) :
  let m := getDashboardMetrics parseFloat semester st in
  let p := getDashboardPerformance parseFloat semester st in
  totalStudents m
  = (List.length (deansListStudents p) + List.length (probationStudents p)
     + List.length (goodStandingStudents p)
     + List.length
         (filter (fun s => (parseFloat (Student.cgpa s) <? 2.00)%float
                           && (Student.credits s =? 0)%N)
                 (candidateSet semester st)))%nat
  /\ deansListCount m = List.length (deansListStudents p).
Proof.
  intros m p. split; [|reflexivity].
  unfold m, p. rewrite getDashboardMetrics_candidates. cbv zeta. cbn [totalStudents].
  rewrite deansListStudents_eq, probationStudents_eq, goodStandingStudents_eq.
  apply partition_length.
  eapply Forall_impl; [|exact Hfinite]. intros s Hs. cbv beta in Hs.
  pose proof (standing_rules_partition (parseFloat (Student.cgpa s)) (Student.credits s)
                (is_finite_not_nan _ Hs)) as R.
  change 2.00%float with 2%float.
  destruct ((parseFloat (Student.cgpa s) <? 2)%float && (Student.credits s =? 0)%N).
  - destruct R as [-> [-> ->]]. reflexivity.
  - destruct R as [[-> [-> ->]]|[[-> [-> ->]]|[-> [-> ->]]]]; reflexivity.
Qed.

Lemma dashboard_totals_agree_witness :
  Forall (fun s => is_finite (parseDecimal (Student.cgpa s)) = true)
         (candidateSet None scenarioB)
  /\ totalStudents (getDashboardMetrics parseDecimal None scenarioB) = (1 + 0 + 1 + 1)%nat.
Proof.
  assert (Hfinite : Forall (fun s => is_finite (parseDecimal (Student.cgpa s)) = true)
                           (candidateSet None scenarioB)).
  { apply Forall_forall. intros s Hs. vm_compute in Hs.
    destruct Hs as [<-|[<-|[<-|[]]]]; vm_compute; reflexivity. }
  split; [exact Hfinite|].
  destruct (dashboard_totals_agree parseDecimal None scenarioB Hfinite) as [H _].
  cbv zeta in H. rewrite H. vm_compute. reflexivity.
Defined.

(** ** Filtering the dashboards by intake *)

Lemma Subsequence_refl {A : Type} (l : list A) : Subsequence l l.
Proof. induction l; now constructor. Qed.

Lemma Subsequence_length {A : Type} (l l' : list A) :
  Subsequence l l' -> (List.length l <= List.length l')%nat.
Proof. induction 1; simpl; lia. Qed.

Lemma Subsequence_filter_compat {A : Type} (p : A -> bool) (l l' : list A) :
  Subsequence l l' -> Subsequence (filter p l) (filter p l').
Proof.
  induction 1 as [|x l l' _ IH|x l l' _ IH]; simpl.
  - constructor.
  - destruct (p x); [now constructor | exact IH].
  - destruct (p x); [now constructor | exact IH].
Qed.

Lemma candidateSet_Subsequence (semester : option string) (st : MemStorage) :
  Subsequence (candidateSet semester st) (getAllStudents st).
Proof.
  unfold candidateSet. destruct semester as [k|]; [|apply Subsequence_refl].
  destruct (negb (String.eqb k "") && negb (String.eqb k "all"));
    [apply Subsequence_filter | apply Subsequence_refl].
Qed.

(** X16.  Giving the dashboards a filter key never adds anything: the
    candidates are an order-preserving sublist of all students, each count
    of [getDashboardMetrics] is at most its unfiltered value, and each list
    of [getDashboardPerformance] is a sublist of the unfiltered list. *)
Theorem dashboard_filter_monotone
  (parseFloat : string -> float) (semester : option string) (st : MemStorage) :
  let m := getDashboardMetrics parseFloat semester st in
  let m0 := getDashboardMetrics parseFloat None st in
  let p := getDashboardPerformance parseFloat semester st in
  let p0 := getDashboardPerformance parseFloat None st in
  Subsequence (candidateSet semester st) (getAllStudents st)
  /\ (totalStudents m <= totalStudents m0)%nat
  /\ (deansListCount m <= deansListCount m0)%nat
  /\ (probationCount m <= probationCount m0)%nat
  /\ Subsequence (deansListStudents p) (deansListStudents p0)
  /\ Subsequence (probationStudents p) (probationStudents p0)
  /\ Subsequence (goodStandingStudents p) (goodStandingStudents p0).
Proof.
  intros m m0 p p0.
  pose proof (candidateSet_Subsequence semester st) as Hsub.
  unfold m, m0, p, p0. rewrite !getDashboardMetrics_candidates. cbv zeta.
  cbn [totalStudents deansListCount probationCount].
  rewrite !deansListStudents_eq, !probationStudents_eq, !goodStandingStudents_eq.
  change (candidateSet None st) with (getAllStudents st).
  split; [exact Hsub|].
  split; [now apply Subsequence_length|].
  split; [now apply Subsequence_length, Subsequence_filter_compat|].
  split; [now apply Subsequence_length, Subsequence_filter_compat|].
  split; [now apply Subsequence_filter_compat|].
  split; now apply Subsequence_filter_compat.
Qed.

Lemma filter_nil_iff {A : Type} (p : A -> bool) (l : list A) :
  filter p l = [] <-> forall x, In x l -> p x = false.
Proof.
  induction l as [|x l IH]; simpl.
  - split; [intros _ y [] | reflexivity].
  - destruct (p x) eqn:E.
    + split; [discriminate|]. intros H. specialize (H x (or_introl eq_refl)). congruence.
    + rewrite IH. split.
      * intros H y [<-|Hy]; [exact E | now apply H].
      * intros H y Hy. apply H. now right.
Qed.

(** X17.  For a filter key other than the empty text and ['all'] that is
    no student's intake, [getDashboardMetrics] reports zero students, zero
    counts and [averageCGPA = 0], and [getDashboardPerformance] three empty
    lists. *)
Theorem dashboard_unknown_key
  (parseFloat : string -> float) (k : string) (st : MemStorage)
  (Hkey : k <> "" /\ k <> "all")
  (Hnone : forall s, In s (getAllStudents st) -> Student.intake s <> k) :
  getDashboardMetrics parseFloat (Some k) st = mkMetrics 0 0 0 0%float
  /\ getDashboardPerformance parseFloat (Some k) st = mkPerformance [] [] [].
Proof.
  assert (Hc : candidateSet (Some k) st = []).
  { unfold candidateSet. destruct Hkey as [H1 H2].
    apply String.eqb_neq in H1. apply String.eqb_neq in H2. rewrite H1, H2.
    cbn [negb andb]. unfold getStudentsBySemester. apply filter_nil_iff.
    intros s Hs. apply String.eqb_neq. now apply Hnone. }
  split.
  - rewrite getDashboardMetrics_candidates, Hc. vm_compute. reflexivity.
  - unfold getDashboardPerformance. fold (candidateSet (Some k) st). now rewrite Hc.
Qed.

Lemma dashboard_unknown_key_witness :
  ("Sep-25" <> "" /\ "Sep-25" <> "all")
  /\ (forall s, In s (getAllStudents scenarioB) -> Student.intake s <> "Sep-25")
  /\ getDashboardMetrics parseDecimal (Some "Sep-25") scenarioB = mkMetrics 0 0 0 0%float.
Proof.
  assert (Hkey : "Sep-25" <> "" /\ "Sep-25" <> "all") by (split; discriminate).
  assert (Hnone : forall s, In s (getAllStudents scenarioB) ->
                            Student.intake s <> "Sep-25").
  { intros s Hs. vm_compute in Hs. destruct Hs as [<-|[<-|[<-|[]]]]; discriminate. }
  split; [exact Hkey|]. split; [exact Hnone|].
  exact (proj1 (dashboard_unknown_key parseDecimal "Sep-25" scenarioB Hkey Hnone)).
Defined.

(** ** The semester list *)

Lemma setOfStrings_acc (l acc : list string) :
  let r := fold_left (fun acc x => if existsb (String.eqb x) acc then acc else acc ++ [x])
                     l acc in
  (forall x, In x r <-> In x acc \/ In x l) /\ (NoDup acc -> NoDup r).
Proof.
  revert acc. induction l as [|y l IH]; intros acc; simpl.
  - split; [intros x; tauto | auto].
  - destruct (existsb (String.eqb y) acc) eqn:E.
    + destruct (IH acc) as [Hin Hnd]. split; [|exact Hnd].
      intros x. rewrite Hin. split; [tauto|].
      intros [H|[<-|H]]; auto. left.
      apply existsb_exists in E. destruct E as [z [Hz Hyz]].
      apply String.eqb_eq in Hyz. now subst.
    + destruct (IH (acc ++ [y])) as [Hin Hnd]. split.
      * intros x. rewrite Hin, in_app_iff. simpl. tauto.
      * intros Hacc. apply Hnd. apply NoDup_app; [exact Hacc | | ].
        -- constructor; [tauto | constructor].
        -- intros x Hx [<-|[]].
           assert (Hex : existsb (String.eqb y) acc = true).
           { apply existsb_exists. exists y. split; [exact Hx | apply String.eqb_refl]. }
           congruence.
Qed.

Section SortFacts.
Variable leb : string -> string -> bool.
Hypothesis leb_total : forall a b, leb a b = true \/ leb b a = true.
Hypothesis leb_trans : forall a b c, leb a b = true -> leb b c = true -> leb a c = true.

Lemma insertSorted_Permutation (x : string) (l : list string) :
  Permutation (insertSorted leb x l) (x :: l).
Proof.
  induction l as [|y l IH]; simpl; [reflexivity|].
  destruct (leb x y); [reflexivity|].
  rewrite IH. apply perm_swap.
Qed.

Lemma sortStrings_Permutation (l : list string) : Permutation (sortStrings leb l) l.
Proof.
  induction l as [|x l IH]; simpl; [constructor|].
  rewrite insertSorted_Permutation. now constructor.
Qed.

Lemma insertSorted_StronglySorted (x : string) (l : list string) :
  StronglySorted (fun a b => leb a b = true) l ->
  StronglySorted (fun a b => leb a b = true) (insertSorted leb x l).
Proof.
  induction l as [|y l IH]; simpl; intros Hl.
  - repeat constructor.
  - inversion Hl as [|? ? Hs Hall]; subst.
    destruct (leb x y) eqn:E.
    + constructor; [exact Hl|]. constructor; [exact E|].
      rewrite Forall_forall in *. intros z Hz. apply (leb_trans x y z E). now apply Hall.
    + assert (Hyx : leb y x = true) by (destruct (leb_total x y); congruence).
      constructor; [now apply IH|].
      rewrite Forall_forall in *. intros z Hz.
      apply (Permutation_in _ (insertSorted_Permutation x l)) in Hz.
      destruct Hz as [<-|Hz]; [exact Hyx | now apply Hall].
Qed.

Lemma sortStrings_StronglySorted (l : list string) :
  StronglySorted (fun a b => leb a b = true) (sortStrings leb l).
Proof.
  induction l as [|x l IH]; simpl; [constructor | now apply insertSorted_StronglySorted].
Qed.

End SortFacts.

Lemma StronglySorted_strict (leb : string -> string -> bool) (l : list string) :
  NoDup l -> StronglySorted (fun a b => leb a b = true) l ->
  StronglySorted (fun a b => leb a b = true /\ a <> b) l.
Proof.
  induction l as [|a l IH]; intros Hnd Hs; [constructor|].
  inversion Hnd as [|? ? Ha Hl]; subst. inversion Hs as [|? ? Hs' Hall]; subst.
  constructor; [now apply IH|].
  rewrite Forall_forall in *. intros b Hb. split; [now apply Hall|].
  intros ->. contradiction.
Qed.

(** [String.leb] is a total order on the texts the model can hold; it is
    the code-unit order on ASCII text. *)
Lemma ascii_compare_N (x y : ascii) :
  Ascii.compare x y = N.compare (N_of_ascii x) (N_of_ascii y).
Proof. reflexivity. Qed.

Lemma string_compare_trans_not_Gt (a b c : string) :
  String.compare a b <> Gt -> String.compare b c <> Gt -> String.compare a c <> Gt.
Proof.
  revert b c. induction a as [|x a IH]; intros [|y b] [|z c]; simpl;
    try congruence; try discriminate.
  rewrite !ascii_compare_N.
  destruct (N.compare_spec (N_of_ascii x) (N_of_ascii y)) as [Exy|Lxy|Gxy];
    destruct (N.compare_spec (N_of_ascii y) (N_of_ascii z)) as [Eyz|Lyz|Gyz];
    try congruence.
  - rewrite Exy, Eyz, N.compare_refl. apply IH.
  - intros _ _. rewrite Exy. apply N.compare_lt_iff in Lyz. now rewrite Lyz.
  - intros _ _. rewrite <- Eyz. apply N.compare_lt_iff in Lxy. now rewrite Lxy.
  - intros _ _. assert (L : (N_of_ascii x < N_of_ascii z)%N) by lia.
    apply N.compare_lt_iff in L. now rewrite L.
Qed.

Lemma string_leb_trans (a b c : string) :
  String.leb a b = true -> String.leb b c = true -> String.leb a c = true.
Proof.
  unfold String.leb. intros Hab Hbc.
  pose proof (string_compare_trans_not_Gt a b c) as H.
  destruct (String.compare a b), (String.compare b c), (String.compare a c);
    try reflexivity; try discriminate; exfalso; apply H; congruence.
Qed.

(** X18.  Whatever total order [Array.prototype.sort()] compares text by,
    the semester list served by GET /api/semesters holds exactly the
    intakes of the stored students, each once, every entry strictly before
    all the later ones in that order; an intake is listed exactly when
    [getStudentsBySemester] finds a student for it. *)
Theorem semestersRoute_sorted_distinct
  (codeUnitLeb : string -> string -> bool) (st : MemStorage)
  (Htotal : forall a b, codeUnitLeb a b = true \/ codeUnitLeb b a = true)
  (Htrans : forall a b c, codeUnitLeb a b = true -> codeUnitLeb b c = true ->
                          codeUnitLeb a c = true) :
  (forall k, In k (semestersRoute codeUnitLeb st) <->
     exists s, In s (getAllStudents st) /\ Student.intake s = k)
  /\ (forall k, In k (semestersRoute codeUnitLeb st) <-> getStudentsBySemester k st <> [])
  /\ NoDup (semestersRoute codeUnitLeb st)
  /\ StronglySorted (fun a b => codeUnitLeb a b = true /\ a <> b)
                    (semestersRoute codeUnitLeb st).
Proof.
  unfold semestersRoute. cbv zeta.
  set (intakes := map Student.intake (getAllStudents st)).
  destruct (setOfStrings_acc intakes []) as [Hin Hnd]. cbv zeta in Hin, Hnd.
  fold (setOfStrings intakes) in Hin, Hnd.
  pose proof (sortStrings_Permutation codeUnitLeb (setOfStrings intakes)) as Hperm.
  assert (Hmem : forall k, In k (sortStrings codeUnitLeb (setOfStrings intakes)) <->
                           exists s, In s (getAllStudents st) /\ Student.intake s = k).
  { intros k. split.
    - intros H. apply (Permutation_in _ Hperm) in H. apply Hin in H.
      destruct H as [[]|H]. unfold intakes in H. apply in_map_iff in H.
      destruct H as [s [Hs Hs']]. now exists s.
    - intros [s [Hs Hk]]. apply (Permutation_in _ (Permutation_sym Hperm)).
      apply Hin. right. unfold intakes. apply in_map_iff. now exists s. }
  assert (Hnodup : NoDup (sortStrings codeUnitLeb (setOfStrings intakes))).
  { apply (Permutation_NoDup (Permutation_sym Hperm)). apply Hnd. constructor. }
  split; [exact Hmem|]. split; [|split; [exact Hnodup|]].
  - intros k. rewrite Hmem. unfold getStudentsBySemester. split.
    + intros [s [Hs Hk]] Hnil.
      pose proof (proj1 (filter_nil_iff _ _) Hnil s Hs) as Hf.
      apply String.eqb_neq in Hf. contradiction.
    + intros Hne.
      destruct (filter (fun student => String.eqb (Student.intake student) k)
                       (getAllStudents st)) as [|s r] eqn:E; [contradiction|].
      assert (Hs : In s (s :: r)) by now left.
      rewrite <- E in Hs. apply filter_In in Hs. destruct Hs as [Hs Hk].
      exists s. split; [exact Hs | now apply String.eqb_eq].
  - apply StronglySorted_strict; [exact Hnodup|].
    now apply sortStrings_StronglySorted.
Qed.

Lemma semestersRoute_sorted_distinct_witness :
  (forall a b, String.leb a b = true \/ String.leb b a = true)
  /\ (forall a b c, String.leb a b = true -> String.leb b c = true ->
                    String.leb a c = true)
  /\ map Student.intake (getAllStudents scenarioIntakes) = ["Jun-25"; "Jan-25"; "Jun-25"]
  /\ semestersRoute String.leb scenarioIntakes = ["Jan-25"; "Jun-25"]
  /\ NoDup (semestersRoute String.leb scenarioIntakes).
Proof.
  split; [exact String.leb_total|]. split; [exact string_leb_trans|].
  split; [reflexivity|]. split; [reflexivity|].
  destruct (semestersRoute_sorted_distinct String.leb scenarioIntakes
              String.leb_total string_leb_trans) as [_ [_ [H _]]].
  exact H.
Defined.

(** ** Seeding *)

Lemma seedStudent_as_createStudent (st : MemStorage) (row : string * InsertStudent.t) :
  seedStudent st row = fst (createStudent (fst row) (snd row) st).
Proof. now destruct row. Qed.

Lemma fold_seedStudent_inv (P : MemStorage -> Prop) rows st :
  (forall now input s, P s -> P (fst (createStudent now input s))) ->
  P st -> P (fold_left seedStudent rows st).
Proof.
  intros Hstep. revert st. induction rows as [|row rows IH]; simpl; intros st Hst.
  - exact Hst.
  - apply IH. rewrite seedStudent_as_createStudent. now apply Hstep.
Qed.

Lemma fold_seedSubject_students subs st :
  students (fold_left seedSubject subs st) = students st.
Proof.
  revert st. induction subs as [|[u s] subs IH]; simpl; intros st; [reflexivity|].
  now rewrite IH.
Qed.

Lemma fold_seedSubject_StoreInv subs st :
  StoreInv st -> StoreInv (fold_left seedSubject subs st).
Proof.
  revert st. induction subs as [|[u s] subs IH]; simpl; intros st Hst; [exact Hst|].
  apply IH. destruct Hst as [Hs Hj]. split; [exact Hs|]. now apply JsMapFacts.wf_set.
Qed.

Lemma fold_seedStudent_subjects rows st :
  subjects (fold_left seedStudent rows st) = subjects st.
Proof.
  revert st. induction rows as [|[t r] rows IH]; simpl; intros st; [reflexivity|].
  now rewrite IH.
Qed.

Lemma fold_seedStudent_get (id : string) rows st :
  JsMap.get id (students (fold_left seedStudent rows st))
  = match lastRowFor id rows with
    | Some x => Some x
    | None => JsMap.get id (students st)
    end.
Proof.
  revert st. induction rows as [|[t r] rows IH] using rev_ind; intros st.
  - reflexivity.
  - rewrite fold_left_app. cbn [fold_left seedStudent students].
    unfold lastRowFor. rewrite rev_app_distr. cbn [rev app find snd fst].
    destruct (String.eqb_spec (InsertStudent.id r) id) as [->|Hne].
    + apply JsMapFacts.get_set_same.
    + rewrite JsMapFacts.get_set_other by congruence. apply IH.
Qed.

(** X19.  However the CSV load ends, the store the constructor builds
    holds each key once in both maps and every student under its own id. *)
Theorem newMemStorage_invariants
  (parsed : option CsvData) (fallbackTimes : string * string) :
  StoreInv (newMemStorage parsed fallbackTimes)
  /\ KeyedById (newMemStorage parsed fallbackTimes).
Proof.
  unfold newMemStorage, seedData. destruct parsed as [[rows subs]|].
  - split.
    + apply fold_seedSubject_StoreInv.
      apply fold_seedStudent_inv; [intros; now apply StoreInv_createStudent|].
      apply StoreInv_empty.
    + unfold KeyedById. rewrite fold_seedSubject_students.
      apply (fold_seedStudent_inv KeyedById);
        [intros; now apply KeyedById_createStudent | constructor].
  - split.
    + apply fold_seedStudent_inv; [intros; now apply StoreInv_createStudent|].
      apply StoreInv_empty.
    + apply (fold_seedStudent_inv KeyedById);
        [intros; now apply KeyedById_createStudent | constructor].
Qed.

(** X20.  After a successful CSV load the student stored under an id is
    the one built from the last parsed row with that id (credits 0 when
    absent, its own creation time), and an id no row carries is not
    found. *)
Theorem newMemStorage_last_row_wins
  (rows : list (string * InsertStudent.t)) (subs : list (string * InsertSubject.t))
  (fallbackTimes : string * string) (id : string) :
  let st := newMemStorage (Some (rows, subs)) fallbackTimes in
  JsMap.get id (students st) = lastRowFor id rows
  /\ (JsMap.get id (students st) = None <->
      forall row, In row rows -> InsertStudent.id (snd row) <> id)
  /\ (forall x, JsMap.get id (students st) = Some x ->
        exists row, In row rows /\ InsertStudent.id (snd row) = id
                    /\ x = newStudent (fst row) (snd row)).
Proof.
  intros st.
  assert (E : JsMap.get id (students st) = lastRowFor id rows).
  { unfold st, newMemStorage, seedData. rewrite fold_seedSubject_students.
    rewrite fold_seedStudent_get. now destruct (lastRowFor id rows). }
  split; [exact E|]. rewrite E. unfold lastRowFor. split.
  - destruct (find _ (rev rows)) as [row|] eqn:F.
    + split; [discriminate|]. intros H. exfalso.
      apply find_some in F. destruct F as [Hin Hid].
      apply String.eqb_eq in Hid. apply (H row); [now apply in_rev | exact Hid].
    + split; [|reflexivity]. intros _ row Hrow.
      apply String.eqb_neq. apply (find_none _ _ F). now apply in_rev in Hrow.
  - intros x. destruct (find _ (rev rows)) as [row|] eqn:F; [|discriminate].
    intros [= <-]. apply find_some in F. destruct F as [Hin Hid].
    exists row. split; [now apply in_rev|]. split; [now apply String.eqb_eq | reflexivity].
Qed.

Lemma fold_seedStudent_nonempty rows st :
  rows <> [] -> students (fold_left seedStudent rows st) <> [].
Proof.
  destruct rows as [|[t r] rows _] using rev_ind; [congruence|].
  intros _. rewrite fold_left_app. cbn [fold_left seedStudent students].
  destruct (students (fold_left seedStudent rows st)) as [|[k0 x0] m]; simpl.
  - discriminate.
  - destruct (String.eqb (InsertStudent.id r) k0); discriminate.
Qed.

(** X21.  The constructor leaves the store without students exactly when
    the CSV load succeeds with no student row; a failed load stores the two
    sample students ["A0001"] and ["A0002"], in this order, and no
    subject. *)
Theorem newMemStorage_empty_iff
  (parsed : option CsvData) (fallbackTimes : string * string) :
  (getAllStudents (newMemStorage parsed fallbackTimes) = []
   <-> exists subs, parsed = Some ([], subs))
  /\ map Student.id (getAllStudents (newMemStorage None fallbackTimes))
     = ["A0001"; "A0002"]
  /\ subjects (newMemStorage None fallbackTimes) = [].
Proof.
  split; [|split; reflexivity].
  assert (Hlen : forall st, getAllStudents st = [] <-> students st = []).
  { intros st. unfold getAllStudents, JsMap.values.
    destruct (students st); simpl; split; try reflexivity; discriminate. }
  rewrite Hlen. destruct parsed as [[rows subs]|].
  - unfold newMemStorage, seedData. rewrite fold_seedSubject_students. split.
    + intros H. destruct rows as [|row rows]; [now exists subs|].
      exfalso. revert H. apply fold_seedStudent_nonempty. discriminate.
    + intros [subs' [= -> _]]. reflexivity.
  - split; [discriminate | intros [subs H]; discriminate].
Qed.

Lemma has_set_other {V : Type} (k k' : string) (v : V) (m : JsMap.t V) :
  k' <> k -> JsMap.has k' (JsMap.set k v m) = JsMap.has k' m.
Proof.
  intros H. rewrite !JsMapFacts.has_get. now rewrite JsMapFacts.get_set_other.
Qed.

Lemma fold_seedSubject_values subs st :
  NoDup (map fst subs) ->
  (forall u, In u (map fst subs) -> JsMap.has u (subjects st) = false) ->
  JsMap.values (subjects (fold_left seedSubject subs st))
  = JsMap.values (subjects st)
    ++ map (fun row =>
              Subject.mk (fst row)
                (InsertSubject.code (snd row)) (InsertSubject.name (snd row))
                (InsertSubject.grade (snd row)) (InsertSubject.status (snd row))
                (InsertSubject.studentId (snd row))) subs.
Proof.
  revert st. induction subs as [|[u s] subs IH]; simpl; intros st Hnd Hfresh.
  - now rewrite app_nil_r.
  - inversion Hnd as [|? ? Hu Hrest]; subst.
    rewrite IH; [|exact Hrest|].
    + cbn [subjects].
      rewrite JsMapLaws.values_set_absent by (apply Hfresh; now left).
      now rewrite <- app_assoc.
    + intros u' Hu'. cbn [subjects]. rewrite has_set_other.
      * apply Hfresh. now right.
      * intros ->. contradiction.
Qed.

Lemma filter_map_pred {A B : Type} (f : A -> B) (p : B -> bool) (l : list A) :
  filter p (map f l) = map f (filter (fun x => p (f x)) l).
Proof.
  induction l as [|x l IH]; simpl; [reflexivity|].
  destruct (p (f x)); simpl; now rewrite IH.
Qed.

(** X22.  After a successful CSV load whose subjects received pairwise
    distinct keys, [getSubjectsByStudentId(id)] lists, in CSV order, the
    parsed subjects whose [studentId] is [id], each under its generated
    key with [grade] and [studentId] as parsed. *)
Theorem newMemStorage_subjects
  (rows : list (string * InsertStudent.t)) (subs : list (string * InsertSubject.t))
  (fallbackTimes : string * string) (id : string)
  (Hdistinct : NoDup (map fst subs)) :
  getSubjectsByStudentId id (newMemStorage (Some (rows, subs)) fallbackTimes)
  = map (fun row =>
           Subject.mk (fst row)
             (InsertSubject.code (snd row)) (InsertSubject.name (snd row))
             (InsertSubject.grade (snd row)) (InsertSubject.status (snd row))
             (InsertSubject.studentId (snd row)))
        (filter (fun row => strict_eq (InsertSubject.studentId (snd row)) id) subs).
Proof.
  unfold getSubjectsByStudentId, newMemStorage, seedData.
  rewrite fold_seedSubject_values; [|exact Hdistinct|].
  - rewrite fold_seedStudent_subjects. cbn [emptyStorage subjects JsMap.values map app].
    apply filter_map_pred.
  - intros u _. now rewrite fold_seedStudent_subjects.
Qed.

Lemma newMemStorage_subjects_witness :
  let subs := [("u1", InsertSubject.mk "CS101" "Programming" (Some "A") "pass" (Some "S1"));
               ("u2", InsertSubject.mk "MA101" "Calculus" None "enrolled" (Some "S2"));
               ("u3", InsertSubject.mk "CS102" "Data Structures" (Some "B") "pass" (Some "S1"))] in
  NoDup (map fst subs)
  /\ map Subject.id
       (getSubjectsByStudentId "S1"
          (newMemStorage (Some ([("t1", S1); ("t2", S2)], subs)) ("t8", "t9")))
     = ["u1"; "u3"].
Proof.
  intros subs.
  assert (Hdistinct : NoDup (map fst subs)).
  { repeat constructor; simpl; intros H;
      repeat (destruct H as [H|H]; [discriminate H|]); exact H. }
  split; [exact Hdistinct|].
  rewrite (newMemStorage_subjects [("t1", S1); ("t2", S2)] subs ("t8", "t9") "S1" Hdistinct).
  reflexivity.
Defined.

(** ** What the mutations keep *)

Lemma KeyedById_createSubject uuid subject st :
  KeyedById st -> KeyedById (fst (createSubject uuid subject st)).
Proof. intros H. exact H. Qed.

(** X23.  Every mutation keeps each key stored once.  Creating or deleting
    a student, creating a subject, and an update that carries no [id] keep
    every student under its own id; an update of a stored student that
    carries another [id] leaves that student under a key that is not its
    id. *)
Theorem mutations_keep_invariants (st : MemStorage) :
  (StoreInv st ->
   (forall now input, StoreInv (fst (createStudent now input st)))
   /\ (forall id updateData, StoreInv (fst (updateStudent id updateData st)))
   /\ (forall id, StoreInv (fst (deleteStudent id st)))
   /\ (forall uuid subject, StoreInv (fst (createSubject uuid subject st))))
  /\ (KeyedById st ->
      (forall now input, KeyedById (fst (createStudent now input st)))
      /\ (forall id, KeyedById (fst (deleteStudent id st)))
      /\ (forall uuid subject, KeyedById (fst (createSubject uuid subject st)))
      /\ (forall id updateData, PartialInsertStudent.id updateData = None ->
            KeyedById (fst (updateStudent id updateData st))))
  /\ (forall id updateData newId,
        JsMap.has id (students st) = true ->
        PartialInsertStudent.id updateData = Some newId -> newId <> id ->
        ~ KeyedById (fst (updateStudent id updateData st))).
Proof.
  split; [|split].
  - intros Hinv. split; [|split; [|split]]; intros.
    + now apply StoreInv_createStudent.
    + now apply StoreInv_updateStudent.
    + now apply StoreInv_deleteStudent.
    + now apply StoreInv_createSubject.
  - intros Hk. split; [|split; [|split]]; intros.
    + now apply KeyedById_createStudent.
    + now apply KeyedById_deleteStudent.
    + now apply KeyedById_createSubject.
    + now apply KeyedById_updateStudent.
  - intros id u newId Hhas Hid Hne Hk.
    rewrite JsMapFacts.has_get in Hhas. unfold updateStudent in Hk.
    destruct (JsMap.get id (students st)) as [existing|] eqn:E; [|discriminate].
    cbn [fst] in Hk. unfold KeyedById in Hk. cbn [students] in Hk.
    rewrite Forall_forall in Hk.
    specialize (Hk (id, mergeStudent existing u)). cbn [fst snd] in Hk.
    assert (Hin : In (id, mergeStudent existing u)
                     (JsMap.set id (mergeStudent existing u) (students st))).
    { apply JsMapLaws.get_In. apply JsMapFacts.get_set_same. }
    specialize (Hk Hin). cbn [mergeStudent Student.id] in Hk.
    rewrite Hid in Hk. cbn [spread] in Hk. contradiction.
Qed.

Lemma mutations_keep_invariants_witness :
  StoreInv scenarioA /\ KeyedById scenarioA
  /\ KeyedById (fst (deleteStudent "S1" scenarioA))
  /\ ~ KeyedById
       (fst (updateStudent "S1"
               (PartialInsertStudent.mk (Some "S9") None None None None None None None)
               scenarioA)).
Proof.
  assert (Hinv : StoreInv scenarioA).
  { do 2 apply StoreInv_createStudent. apply StoreInv_empty. }
  assert (Hkeyed : KeyedById scenarioA) by (repeat constructor).
  destruct (mutations_keep_invariants scenarioA) as [_ [Hk Hbreak]].
  destruct (Hk Hkeyed) as [_ [Hdel _]].
  split; [exact Hinv|]. split; [exact Hkeyed|]. split; [apply Hdel|].
  apply (Hbreak "S1" _ "S9"); [reflexivity | reflexivity | discriminate].
Defined.

(** ** The metrics read the students only *)

Section MetricsFrame.
Variable parseFloat : string -> float.

(** The metrics computed on the stored students themselves. *)
Lemma getDashboardMetrics_raw (semester : option string) (st : MemStorage) :
  getDashboardMetrics parseFloat semester st
  = let raw :=
      match semester with
      | Some k =>
          if negb (String.eqb k "") && negb (String.eqb k "all")
          then filter (fun s => String.eqb (Student.intake s) k)
                      (JsMap.values (students st))
          else JsMap.values (students st)
      | None => JsMap.values (students st)
      end in
    mkMetrics
      (List.length raw)
      (List.length (filter (fun s => deansListRule (parseFloat (Student.cgpa s))
                                                   (Student.credits s)) raw))
      (List.length (filter (fun s => probationMetricRule (parseFloat (Student.cgpa s))) raw))
      (roundTo2dp (if (0 <? List.length raw)%nat
                   then arithmeticMean (map (fun s => parseFloat (Student.cgpa s)) raw)
                   else 0%float)).
Proof.
  rewrite getDashboardMetrics_candidates. cbv zeta.
  set (join := fun student =>
                 Student.withSubjects student
                   (getSubjectsByStudentId (Student.id student) st)).
  assert (Hc : candidateSet semester st
    = map join
        match semester with
        | Some k =>
            if negb (String.eqb k "") && negb (String.eqb k "all")
            then filter (fun s => String.eqb (Student.intake s) k)
                        (JsMap.values (students st))
            else JsMap.values (students st)
        | None => JsMap.values (students st)
        end).
  { unfold candidateSet, getStudentsBySemester, getAllStudents. fold join.
    destruct semester as [k|]; [|reflexivity].
    destruct (negb (String.eqb k "") && negb (String.eqb k "all")); [|reflexivity].
    apply filter_map_pred. }
  rewrite Hc. rewrite !filter_map_pred, !length_map, map_map. reflexivity.
Qed.

End MetricsFrame.

(** X24.  [getDashboardMetrics] depends on the student map alone: stores
    with the same students give the same metrics whatever subjects they
    hold, so [createSubject] never changes a dashboard figure. *)
Theorem getDashboardMetrics_ignores_subjects
  (parseFloat : string -> float) (semester : option string) (st st' : MemStorage)
  (Hsame : students st' = students st) :
  getDashboardMetrics parseFloat semester st' = getDashboardMetrics parseFloat semester st
  /\ forall uuid subject,
       getDashboardMetrics parseFloat semester (fst (createSubject uuid subject st))
       = getDashboardMetrics parseFloat semester st.
Proof.
  split.
  - rewrite !getDashboardMetrics_raw. now rewrite Hsame.
  - intros uuid subject. rewrite !getDashboardMetrics_raw. reflexivity.
Qed.

Lemma getDashboardMetrics_ignores_subjects_witness :
  let subject := InsertSubject.mk "CS101" "Programming" None "enrolled" (Some "S1") in
  students (fst (createSubject "u1" subject scenarioB)) = students scenarioB
  /\ getDashboardMetrics parseDecimal None (fst (createSubject "u1" subject scenarioB))
     = getDashboardMetrics parseDecimal None scenarioB.
Proof.
  intros subject. split; [reflexivity|].
  exact (proj1 (getDashboardMetrics_ignores_subjects parseDecimal None scenarioB
                  (fst (createSubject "u1" subject scenarioB)) eq_refl)).
Defined.
